(** * Proxy pool, rotating HTTP client and render queue of [src/network.ts]

    A shallow embedding of the module-level state of [network.ts] and of
    the functions that read and write it, followed by the properties of
    the design document that concern them.

    Conventions of the embedding.
    - JavaScript strings are [string]: code units below 256, which is the
      alphabet of a [host:port] list.
    - [currentProxyIndex] is a JavaScript number.  Every value it takes is
      either a small non-negative integer, on which [+] and [%] are exact,
      or [NaN], produced by [% 0]; the type [JsNum] has exactly these.
    - An [async] function runs without interruption between two [await]s.
      The sequential model (section [Client]) runs one call of
      [fetchNetwork] to its end; the interleaving of several callers is
      modelled by the event machines of [Module Refresh] and
      [Module RenderQueue], one event per uninterrupted segment.
    - The network is a parameter: the outcome of the n-th outbound request
      is [net n].  Each request is recorded with the instance that issued
      it (whose interceptor, if any, sees its failure) and with the agents
      of its merged configuration (the route it leaves by). *)

From Stdlib Require Import ZArith List String Ascii Bool Lia Arith Permutation.
Import ListNotations.
Local Open Scope string_scope.
Local Open Scope Z_scope.

(** ** JavaScript numbers, as far as the index needs them *)

Inductive JsNum : Type :=
| Num (z : Z)
| NaN.

(** [a + b] *)
Definition js_add (a b : JsNum) : JsNum :=
  match a, b with
  | Num x, Num y => Num (x + y)
  | _, _ => NaN
  end.

(** [a % b]: the remainder has the sign of the dividend, and a zero divisor
    gives [NaN]. *)
Definition js_rem (a b : JsNum) : JsNum :=
  match a, b with
  | Num x, Num y => if y =? 0 then NaN else Num (Z.rem x y)
  | _, _ => NaN
  end.

(** [a === b] on numbers: [NaN] equals nothing, not even itself. *)
Definition js_strict_eq (a b : JsNum) : bool :=
  match a, b with
  | Num x, Num y => x =? y
  | _, _ => false
  end.

(** [xs.length] *)
Definition js_length {A} (xs : list A) : JsNum := Num (Z.of_nat (List.length xs)).

(** [xs[i]]: [None] stands for [undefined] (index out of range, or [NaN]). *)
Definition js_index {A} (xs : list A) (i : JsNum) : option A :=
  match i with
  | Num z => if z <? 0 then None else nth_error xs (Z.to_nat z)
  | NaN => None
  end.

(** ** JavaScript string operations used by the refresh *)

(** [s.split(sep)] for a one-character separator: never the empty list. *)
Fixpoint split (sep : ascii) (s : string) : list string :=
  match s with
  | EmptyString => [EmptyString]
  | String c s' =>
      if Ascii.eqb c sep then EmptyString :: split sep s'
      else match split sep s' with
           | h :: t => String c h :: t
           | [] => [String c EmptyString]
           end
  end.

(** [xs.join(sep)] *)
Definition join (sep : string) (xs : list string) : string := String.concat sep xs.

(** [xs.slice(0, n)] *)
Definition slice0 {A} (n : nat) (xs : list A) : list A := firstn n xs.

(** White space and line terminators of ECMAScript below 256:
    TAB, LF, VT, FF, CR, SP, NBSP. *)
Definition is_ws (c : ascii) : bool :=
  let n := nat_of_ascii c in
  (Nat.eqb n 9 || Nat.eqb n 10 || Nat.eqb n 11 || Nat.eqb n 12
   || Nat.eqb n 13 || Nat.eqb n 32 || Nat.eqb n 160)%bool.

Fixpoint trimStart (s : string) : string :=
  match s with
  | EmptyString => EmptyString
  | String c s' => if is_ws c then trimStart s' else s
  end.

Fixpoint trimEnd (s : string) : string :=
  match s with
  | EmptyString => EmptyString
  | String c s' =>
      match trimEnd s' with
      | EmptyString => if is_ws c then EmptyString else String c EmptyString
      | r => String c r
      end
  end.

(** [s.trim()] *)
Definition trim (s : string) : string := trimEnd (trimStart s).

(** [Boolean(s)] on a string: the empty string is the only falsy one. *)
Definition truthy (s : string) : bool :=
  match s with
  | EmptyString => false
  | String _ _ => true
  end.

Definition LF : ascii := ascii_of_nat 10.
Definition COLON : ascii := ":"%char.

(** The callback of [proxyData.map]:
    [proxy => proxy.trim().split(':').slice(0, 2).join(':')]. *)
Definition normalizeProxy (proxy : string) : string :=
  join ":" (slice0 2 (split COLON (trim proxy))).

(** [response.data.split('\n').map(...).filter(Boolean)] *)
Definition parseProxyData (data : string) : list string :=
  filter truthy (map normalizeProxy (split LF data)).

(** The design document's wording of the same step, for comparison: the
    first two colon-delimited fields of each line, empty lines dropped. *)
Definition spec_parseProxyData (data : string) : list string :=
  map (fun line => join ":" (slice0 2 (split COLON line)))
      (filter truthy (split LF data)).

(** ** Errors, transports and the module-level state *)

(** [error.code] of a rejected request: a string, or absent. *)
Inductive JsCode : Type :=
| CUndefined
| CNull
| CStr (s : string).

(** The [httpAgent] and [httpsAgent] of an instance or of a request
    configuration: none, or the pair built from one entry of the list.
    [ViaProxy None] is the pair built from [proxyList[i]] when that entry
    is [undefined]. *)
Inductive Transport : Type :=
| Direct
| ViaProxy (proxy : option string).

(** A request configuration, as far as it differs between requests: its
    URL and its agents.  Headers and the 2000 ms deadline are the same on
    every request. *)
Record Config : Type := mkConfig {
  cfg_url : string;
  cfg_agents : Transport
}.

(** [error.code] and [error.config]: the configuration is the merged one
    of the request that failed. *)
Record AxiosError : Type := mkError {
  code : JsCode;
  config : Config
}.

Record AxiosInstance : Type := mkInstance {
  transport : Transport;
  interceptors : bool   (* the handler of [setupAxiosInterceptors] is installed *)
}.

(** What the outside world answers to one request. *)
Inductive Response : Type :=
| NetOk (data : string)
| NetErr (c : JsCode).

(** Observable actions, recorded in order. *)
Inductive Event : Type :=
| EvRequest (via : AxiosInstance) (route : Transport) (url : string)
| EvRotate (newIndex : JsNum).

Record State : Type := mkState {
  proxyList : list string;
  currentProxyIndex : JsNum;
  lastProxyFetchTime : Z;
  isFetchingProxies : bool;
  axiosInstance : AxiosInstance;
  (* the environment's side *)
  sent : nat;            (* requests issued so far *)
  reads : nat;           (* calls of [Date.now] so far *)
  trace : list Event
}.

Definition proxyFetchInterval : Z := 60 * 60 * 1000.
Definition TIMEOUT : Z := 2000.
Definition DEFAULT_PROXY_URL : string :=
  "https://github.com/zloi-user/hideip.me/raw/main/https.txt".
Definition IPIFY : string := "https://api.ipify.org".

(** [axios.create({timeout: TIMEOUT})] and [axios.create({})]: no agent, no
    interceptor. *)
Definition plainInstance : AxiosInstance := mkInstance Direct false.

(** The state when the module has just been loaded (lines 6 to 15). *)
Definition initialState : State :=
  {| proxyList := []; currentProxyIndex := Num 0; lastProxyFetchTime := 0;
     isFetchingProxies := false; axiosInstance := plainInstance;
     sent := 0; reads := 0; trace := [] |}.

Definition set_proxyList (l : list string) (s : State) : State :=
  {| proxyList := l; currentProxyIndex := currentProxyIndex s;
     lastProxyFetchTime := lastProxyFetchTime s;
     isFetchingProxies := isFetchingProxies s; axiosInstance := axiosInstance s;
     sent := sent s; reads := reads s; trace := trace s |}.

Definition set_currentProxyIndex (i : JsNum) (s : State) : State :=
  {| proxyList := proxyList s; currentProxyIndex := i;
     lastProxyFetchTime := lastProxyFetchTime s;
     isFetchingProxies := isFetchingProxies s; axiosInstance := axiosInstance s;
     sent := sent s; reads := reads s; trace := trace s |}.

Definition set_lastProxyFetchTime (t : Z) (s : State) : State :=
  {| proxyList := proxyList s; currentProxyIndex := currentProxyIndex s;
     lastProxyFetchTime := t;
     isFetchingProxies := isFetchingProxies s; axiosInstance := axiosInstance s;
     sent := sent s; reads := reads s; trace := trace s |}.

Definition set_isFetchingProxies (b : bool) (s : State) : State :=
  {| proxyList := proxyList s; currentProxyIndex := currentProxyIndex s;
     lastProxyFetchTime := lastProxyFetchTime s;
     isFetchingProxies := b; axiosInstance := axiosInstance s;
     sent := sent s; reads := reads s; trace := trace s |}.

Definition set_axiosInstance (a : AxiosInstance) (s : State) : State :=
  {| proxyList := proxyList s; currentProxyIndex := currentProxyIndex s;
     lastProxyFetchTime := lastProxyFetchTime s;
     isFetchingProxies := isFetchingProxies s; axiosInstance := a;
     sent := sent s; reads := reads s; trace := trace s |}.

Definition record (e : Event) (s : State) : State :=
  {| proxyList := proxyList s; currentProxyIndex := currentProxyIndex s;
     lastProxyFetchTime := lastProxyFetchTime s;
     isFetchingProxies := isFetchingProxies s; axiosInstance := axiosInstance s;
     sent := sent s; reads := reads s; trace := trace s ++ [e] |}.

Definition count_sent (s : State) : State :=
  {| proxyList := proxyList s; currentProxyIndex := currentProxyIndex s;
     lastProxyFetchTime := lastProxyFetchTime s;
     isFetchingProxies := isFetchingProxies s; axiosInstance := axiosInstance s;
     sent := S (sent s); reads := reads s; trace := trace s |}.

Definition count_read (s : State) : State :=
  {| proxyList := proxyList s; currentProxyIndex := currentProxyIndex s;
     lastProxyFetchTime := lastProxyFetchTime s;
     isFetchingProxies := isFetchingProxies s; axiosInstance := axiosInstance s;
     sent := sent s; reads := S (reads s); trace := trace s |}.

(** ** The proxy pool: the uninterrupted segments of [fetchProxyList] *)

(** The [try] body after the [await] of line 53 when the request succeeded
    (lines 54 to 58), followed by the [finally] of line 62.  [now] is what
    [Date.now()] returns at line 58. *)
Definition fetchProxyList_resolved (data : string) (now : Z) (s : State) : State :=
  let s := set_proxyList (parseProxyData data) s in
  let s := set_currentProxyIndex (Num 0) s in
  let s := set_lastProxyFetchTime now s in
  set_isFetchingProxies false s.

(** The [catch] of lines 59 to 60 (a log line) and the [finally]. *)
Definition fetchProxyList_rejected (s : State) : State :=
  set_isFetchingProxies false s.

(** The condition of [refreshProxyListIfNeeded] (line 68). *)
Definition refreshNeeded (now : Z) (s : State) : bool :=
  (proxyFetchInterval <? now - lastProxyFetchTime s)
  || (Z.of_nat (List.length (proxyList s)) =? 0).

(** The rotation arithmetic of line 81. *)
Definition nextIndex (s : State) : JsNum :=
  js_rem (js_add (currentProxyIndex s) (Num 1)) (js_length (proxyList s)).

(** The design document's rotation arithmetic, for comparison: one more
    slot than there are proxies. *)
Definition spec_nextIndex (s : State) : JsNum :=
  js_rem (js_add (currentProxyIndex s) (Num 1))
         (js_add (js_length (proxyList s)) (Num 1)).

(** ** One call at a time: promises as results, state passed along *)

Inductive Result (A : Type) : Type :=
| Resolved (a : A)          (* the promise is fulfilled *)
| Rejected (e : AxiosError) (* the promise is rejected *)
| Waits                     (* polls a flag that only another caller clears *)
| NoFuel.                   (* the model ran out of fuel *)
Arguments Resolved {A} a.
Arguments Rejected {A} e.
Arguments Waits {A}.
Arguments NoFuel {A}.

Definition M (A : Type) : Type := State -> Result A * State.

Definition ret {A} (a : A) : M A := fun s => (Resolved a, s).
Definition reject {A} (e : AxiosError) : M A := fun s => (Rejected e, s).

(** [await m], then [k]. *)
Definition bind {A B} (m : M A) (k : A -> M B) : M B :=
  fun s =>
    match m s with
    | (Resolved a, s') => k a s'
    | (Rejected e, s') => (Rejected e, s')
    | (Waits, s') => (Waits, s')
    | (NoFuel, s') => (NoFuel, s')
    end.

Notation "x <- m ;; k" := (bind m (fun x => k))
  (at level 61, m at next level, right associativity).

Definition modify (f : State -> State) : M unit := fun s => (Resolved tt, f s).
Definition gets {A} (f : State -> A) : M A := fun s => (Resolved (f s), s).

(** The test of line 23:
    [['ECONNABORTED', 'ECONNRESET', 'ETIMEDOUT', 'ERR_BAD_REQUEST'].includes(error.code)
     || error.code == undefined]. *)
Definition retryCodes : list string :=
  ["ECONNABORTED"; "ECONNRESET"; "ETIMEDOUT"; "ERR_BAD_REQUEST"].

Definition includes (xs : list string) (c : JsCode) : bool :=
  match c with
  | CStr s => existsb (String.eqb s) xs
  | _ => false
  end.

(** [c == undefined]: loose equality holds for [undefined] and [null] only. *)
Definition loose_eq_undefined (c : JsCode) : bool :=
  match c with
  | CUndefined | CNull => true
  | CStr _ => false
  end.

Definition isTransient (c : JsCode) : bool :=
  includes retryCodes c || loose_eq_undefined c.

(** [setupAxiosInterceptors]: the instance, with the handler installed. *)
Definition setupAxiosInterceptors (a : AxiosInstance) : AxiosInstance :=
  mkInstance (transport a) true.

(** The configuration of [instance.get(url, {headers, timeout})] before
    it is merged: it names no agents. *)
Definition getUrl (url : string) : Config := mkConfig url Direct.

(** How axios merges a request configuration with the defaults of the
    instance that issues it: agents named by the request stand, and the
    agents of the instance are used where the request names none. *)
Definition mergeAgents (defaults request : Transport) : Transport :=
  match request with
  | Direct => defaults
  | ViaProxy p => ViaProxy p
  end.

Definition mergeConfig (via : AxiosInstance) (cfg : Config) : Config :=
  mkConfig (cfg_url cfg) (mergeAgents (transport via) (cfg_agents cfg)).

Section Client.

(** The outcome of the n-th request and the value of the n-th
    [Date.now()]; [process.env.PROXY_URL]. *)
Variable net : nat -> Response.
Variable dateNow : nat -> Z.
Variable env_PROXY_URL : option string.

Definition PROXY_URL : string :=
  match env_PROXY_URL with
  | Some u => if truthy u then u else DEFAULT_PROXY_URL
  | None => DEFAULT_PROXY_URL
  end.

(** One request, issued by [via] with the merged configuration [cfg],
    leaves the process and its answer comes back. *)
Definition send (via : AxiosInstance) (cfg : Config) (s : State)
  : Response * State :=
  (net (sent s),
   count_sent (record (EvRequest via (cfg_agents cfg) (cfg_url cfg)) s)).

Definition Date_now : M Z :=
  fun s => (Resolved (dateNow (reads s)), count_read s).

(** The functions below call each other through the interceptor; [call]
    is "this instance issues a request with that configuration" with the
    remaining fuel. *)
Section Knot.
Variable call : AxiosInstance -> Config -> M string.

(** Lines 90 to 113. *)
Definition setupAxiosInstanceWithProxy_ : M AxiosInstance :=
  proxy <- gets (fun s => js_index (proxyList s) (currentProxyIndex s)) ;;
  _ <- modify (set_axiosInstance (mkInstance (ViaProxy proxy) false)) ;;
  _ <- modify (fun s => set_axiosInstance
                          (setupAxiosInterceptors (axiosInstance s)) s) ;;
  a <- gets axiosInstance ;;
  _ <- call a (getUrl IPIFY) ;;
  gets axiosInstance.

(** Lines 80 to 87. *)
Definition rotateProxy_ : M AxiosInstance :=
  _ <- modify (fun s => set_currentProxyIndex (nextIndex s) s) ;;
  _ <- modify (fun s => record (EvRotate (currentProxyIndex s)) s) ;;
  i <- gets currentProxyIndex ;;
  if js_strict_eq i (Num 0) then ret plainInstance
  else setupAxiosInstanceWithProxy_.

(** The rejection handler of lines 21 to 29. *)
Definition onRejected (error : AxiosError) : M string :=
  if isTransient (code error) then
    newAxiosInstance <- rotateProxy_ ;;
    call newAxiosInstance (config error)
  else reject error.
End Knot.

(** [via.request(cfg)], which is what [via.get(url, ...)] and
    [via(config)] come to: the configuration is merged with the defaults
    of [via], the request goes out, and a failure, which carries the
    merged configuration, passes through the rejection handler when
    [via] has one. *)
Fixpoint request (fuel : nat) (via : AxiosInstance) (cfg : Config) : M string :=
  match fuel with
  | O => fun s => (NoFuel, s)
  | S fuel' =>
      fun s =>
        match send via (mergeConfig via cfg) s with
        | (NetOk data, s1) => (Resolved data, s1)
        | (NetErr c, s1) =>
            if interceptors via
            then onRejected (request fuel')
                            (mkError c (mergeConfig via cfg)) s1
            else (Rejected (mkError c (mergeConfig via cfg)), s1)
        end
  end.

Definition rotateProxy (fuel : nat) : M AxiosInstance :=
  rotateProxy_ (request fuel).

Definition setupAxiosInstanceWithProxy (fuel : nat) : M AxiosInstance :=
  setupAxiosInstanceWithProxy_ (request fuel).

(** Lines 36 to 64, for a caller that runs alone. *)
Definition fetchProxyList : M unit :=
  fun s =>
    if isFetchingProxies s then (Waits, s)
    else
      let s := set_isFetchingProxies true s in
      match send plainInstance
                 (mergeConfig plainInstance (getUrl PROXY_URL)) s with
      | (NetOk data, s1) =>
          (Resolved tt,
           fetchProxyList_resolved data (dateNow (reads s1)) (count_read s1))
      | (NetErr _, s1) => (Resolved tt, fetchProxyList_rejected s1)
      end.

(** Lines 67 to 71. *)
Definition refreshProxyListIfNeeded : M unit :=
  now <- Date_now ;;
  needed <- gets (refreshNeeded now) ;;
  if needed then fetchProxyList else ret tt.

(** Lines 73 to 78. *)
Definition getAxiosInstance (fuel : nat) (useProxy : bool) : M AxiosInstance :=
  if negb useProxy then ret plainInstance
  else _ <- refreshProxyListIfNeeded ;; setupAxiosInstanceWithProxy fuel.

(** Lines 190 to 201: [fetchNetwork(url, 'axios', useProxy)].  The
    [catch] logs and throws the same error again.  The other mode goes
    to [RenderQueue.queuePuppeteerRequest]. *)
Definition fetchNetwork (fuel : nat) (url : string) (useProxy : bool) : M string :=
  a <- getAxiosInstance fuel useProxy ;;
  request fuel a (getUrl url).

End Client.

Fixpoint countRotations (t : list Event) : nat :=
  match t with
  | [] => O
  | EvRotate _ :: t' => S (countRotations t')
  | EvRequest _ _ _ :: t' => countRotations t'
  end.

Fixpoint countRequests (url : string) (t : list Event) : nat :=
  match t with
  | [] => O
  | EvRequest _ _ u :: t' =>
      if String.eqb u url then S (countRequests url t') else countRequests url t'
  | EvRotate _ :: t' => countRequests url t'
  end.

(** ** Several callers of [fetchProxyList] at once

    Each event is one uninterrupted segment of the function: the entry up
    to the first suspension, the continuation after the request of line 53
    settles, and one tick of the 100 ms interval of a waiting caller. *)

Module Refresh.

Definition Caller : Type := nat.

Inductive Ev : Type :=
| Call (c : Caller)
| Settle (c : Caller) (r : Response) (now : Z)
| Tick (c : Caller).

Record Sys : Type := mkSys {
  pool : State;
  inflight : list Caller;   (* suspended at line 53 *)
  polling : list Caller;    (* an interval timer is armed for them *)
  returned : list (Caller * list string)
    (* fulfilled promises, with [proxyList] as it was at that moment *)
}.

Definition mem (c : Caller) (l : list Caller) : bool := existsb (Nat.eqb c) l.

Fixpoint remove1 (c : Caller) (l : list Caller) : list Caller :=
  match l with
  | [] => []
  | x :: l' => if Nat.eqb c x then l' else x :: remove1 c l'
  end.

Section Machine.
Variable env_PROXY_URL : option string.

(** Lines 37 to 53. *)
Definition enter (c : Caller) (y : Sys) : Sys :=
  if isFetchingProxies (pool y) then
    mkSys (pool y) (inflight y) (polling y ++ [c]) (returned y)
  else
    let p := set_isFetchingProxies true (pool y) in
    let p := count_sent
               (record (EvRequest plainInstance Direct
                                  (PROXY_URL env_PROXY_URL)) p) in
    mkSys p (inflight y ++ [c]) (polling y) (returned y).

(** Lines 54 to 63, then the implicit return. *)
Definition settle (c : Caller) (r : Response) (now : Z) (y : Sys) : Sys :=
  if mem c (inflight y) then
    let p := match r with
             | NetOk data => fetchProxyList_resolved data now (pool y)
             | NetErr _ => fetchProxyList_rejected (pool y)
             end in
    mkSys p (remove1 c (inflight y)) (polling y)
          (returned y ++ [(c, proxyList p)])
  else y.

(** Lines 40 to 45. *)
Definition tick (c : Caller) (y : Sys) : Sys :=
  if mem c (polling y) then
    if negb (isFetchingProxies (pool y)) then
      mkSys (pool y) (inflight y) (remove1 c (polling y))
            (returned y ++ [(c, proxyList (pool y))])
    else y
  else y.

Definition step (y : Sys) (e : Ev) : Sys :=
  match e with
  | Call c => enter c y
  | Settle c r now => settle c r now y
  | Tick c => tick c y
  end.

Definition run (es : list Ev) (y : Sys) : Sys := fold_left step es y.
End Machine.

(** Nobody is inside [fetchProxyList]. *)
Definition idle (p : State) : Sys := mkSys (set_isFetchingProxies false p) [] [] [].

(** The invariant of the machine. *)
Definition single_flight (y : Sys) : Prop :=
  (List.length (inflight y) <= 1)%nat /\
  (isFetchingProxies (pool y) = true <-> inflight y <> []).

End Refresh.

(** ** The render queue

    One event per uninterrupted segment: a call of [queuePuppeteerRequest],
    and the continuation of [processPuppeteerQueue] after the awaited task
    has settled.  The closure pushed on the queue never throws (it catches
    every failure of [fetchWithPuppeteer] and hands it to [reject]), so the
    continuation runs after every task, failed or not. *)

Module RenderQueue.

Record Task : Type := mkTask {
  task_id : nat;
  task_url : string;
  task_useProxy : bool
}.

Definition Task_eq_dec (a b : Task) : {a = b} + {a <> b}.
Proof.
  decide equality; [apply Bool.bool_dec | apply string_dec | apply Nat.eq_dec].
Defined.

Definition MAX_PUPPETEER_REQUESTS : Z := 2.

Record Q : Type := mkQ {
  puppeteerQueue : list Task;
  activePuppeteerRequests : Z;
  (* bookkeeping of the model *)
  running : list Task;     (* started, not settled yet *)
  started : list Task;     (* in the order of their start *)
  finished : list Task;    (* in the order of their end *)
  submitted : list Task    (* in the order of their submission *)
}.

Definition empty : Q := mkQ [] 0 [] [] [] [].

Fixpoint remove1 (t : Task) (l : list Task) : list Task :=
  match l with
  | [] => []
  | x :: l' => if Task_eq_dec t x then l' else x :: remove1 t l'
  end.

(** Lines 132 to 141, up to the [await]. *)
Definition processPuppeteerQueue (q : Q) : Q :=
  if (MAX_PUPPETEER_REQUESTS <=? activePuppeteerRequests q)
     || (Z.of_nat (List.length (puppeteerQueue q)) =? 0)
  then q
  else
    match puppeteerQueue q with
    | [] => q                                   (* [shift()] gave [undefined] *)
    | puppeteerRequest :: rest =>
        mkQ rest (activePuppeteerRequests q + 1)
            (running q ++ [puppeteerRequest])
            (started q ++ [puppeteerRequest])
            (finished q) (submitted q)
    end.

(** Lines 116 to 128. *)
Definition queuePuppeteerRequest (t : Task) (q : Q) : Q :=
  processPuppeteerQueue
    (mkQ (puppeteerQueue q ++ [t]) (activePuppeteerRequests q)
         (running q) (started q) (finished q) (submitted q ++ [t])).

(** Lines 142 to 143, when the task [t] awaited at line 141 has settled. *)
Definition settled (t : Task) (q : Q) : Q :=
  if in_dec Task_eq_dec t (running q) then
    processPuppeteerQueue
      (mkQ (puppeteerQueue q) (activePuppeteerRequests q - 1)
           (remove1 t (running q)) (started q) (finished q ++ [t])
           (submitted q))
  else q.

Inductive Ev : Type :=
| Enqueue (t : Task)
| Done (t : Task).

Definition step (q : Q) (e : Ev) : Q :=
  match e with
  | Enqueue t => queuePuppeteerRequest t q
  | Done t => settled t q
  end.

Definition run (es : list Ev) (q : Q) : Q := fold_left step es q.

(** Tasks that have been submitted and have not ended. *)
Definition outstanding (q : Q) : nat :=
  (List.length (puppeteerQueue q) + List.length (running q))%nat.

(** The tasks of [ts] end one after the other, each while it runs. *)
Fixpoint complete (ts : list Task) (q : Q) : option Q :=
  match ts with
  | [] => Some q
  | t :: ts' =>
      if in_dec Task_eq_dec t (running q) then complete ts' (settled t q)
      else None
  end.

(** Always the task that started first ends first, [n] times. *)
Fixpoint drain (n : nat) (q : Q) : list Task :=
  match n with
  | O => []
  | S n' =>
      match running q with
      | [] => []
      | t :: _ => t :: drain n' (settled t q)
      end
  end.

(** What every reachable state of the queue satisfies. *)
Definition consistent (q : Q) : Prop :=
  activePuppeteerRequests q = Z.of_nat (List.length (running q)) /\
  (List.length (running q) <= 2)%nat /\
  (puppeteerQueue q <> [] -> List.length (running q) = 2%nat) /\
  (started q ++ puppeteerQueue q)%list = submitted q /\
  Permutation (started q) (finished q ++ running q)%list.

End RenderQueue.

(** ** Scenarios *)

Definition pool3 : State :=
  set_proxyList ["1.1.1.1:8080"; "2.2.2.2:8080"; "3.3.3.3:8080"] initialState.

Definition allOk (n : nat) : Response := NetOk "ok".
Definition noClock (n : nat) : Z := 0.

(** [s] has an occurrence of [c]. *)
Fixpoint contains (c : ascii) (s : string) : bool :=
  match s with
  | EmptyString => false
  | String x s' => Ascii.eqb x c || contains c s'
  end.

(** A proxy source that answers the three lines
    [1.1.1.1:8080:extra], [ 2.2.2.2:8080 ] followed by CR, an empty line,
    and [3.3.3.3:8080]. *)
Definition sourceData : string :=
  String.concat (String LF "")
    ["1.1.1.1:8080:extra"; " 2.2.2.2:8080 " ++ String (ascii_of_nat 13) ""; "";
     "3.3.3.3:8080"].

Definition sourceUp (n : nat) : Response := NetOk sourceData.
Definition sourceDown (n : nat) : Response := NetErr (CStr "ECONNREFUSED").
Definition clockAt (t : Z) (n : nat) : Z := t.

(** ** Names for the states a rotation goes through *)

(** After line 81. *)
Definition rotated (s : State) : State :=
  record (EvRotate (nextIndex s)) (set_currentProxyIndex (nextIndex s) s).

(** The instance built by lines 92 to 104 for the current index. *)
Definition proxied (s : State) : AxiosInstance :=
  mkInstance (ViaProxy (js_index (proxyList s) (currentProxyIndex s))) true.

(** After line 104: the instance is stored in [axiosInstance]. *)
Definition installed (s : State) : State := set_axiosInstance (proxied s) s.

(** [via] has issued a request with the merged configuration [cfg]. *)
Definition requested (via : AxiosInstance) (cfg : Config) (s : State) : State :=
  count_sent (record (EvRequest via (cfg_agents cfg) (cfg_url cfg)) s).

(** The merged configuration of the control request of line 106: it
    leaves by the agents of the instance just built. *)
Definition controlConfig (s : State) : Config :=
  mergeConfig (proxied s) (getUrl IPIFY).

(** After line 106 has sent the control request. *)
Definition validating (s : State) : State :=
  requested (proxied s) (controlConfig s) (installed s).

(** The promise that settles with a given answer. *)
Definition settleWith (r : Response) (cfg : Config) : Result string :=
  match r with
  | NetOk data => Resolved data
  | NetErr c => Rejected (mkError c cfg)
  end.

(** [trace s'] continues [trace s]. *)
Definition extends (s s' : State) : Prop :=
  exists t, trace s' = (trace s ++ t)%list.

(** The index is a position of the list, or 0 in an empty list. *)
Definition index_in_range (s : State) : bool :=
  match currentProxyIndex s with
  | Num i => (0 <=? i) && (i <=? Z.of_nat (List.length (proxyList s)))
  | NaN => false
  end.

(** [k] calls of [rotateProxy], each awaited before the next, whatever
    their outcome. *)
Fixpoint rotateTimes (net : nat -> Response) (fuel k : nat) (s : State) : State :=
  match k with
  | O => s
  | S k' => rotateTimes net fuel k' (snd (rotateProxy net fuel s))
  end.

(** Answers given in order; later requests succeed. *)
Definition script (rs : list Response) (n : nat) : Response :=
  nth n rs (NetOk "ok").

Definition timedOut : Response := NetErr (CStr "ETIMEDOUT").

Definition threeProxies : string :=
  String.concat (String LF "") ["1.1.1.1:8080"; "2.2.2.2:8080"; "3.3.3.3:8080"].

(** The source answers three proxies and the first proxy passes its
    control request; the page times out on the first attempt and again on
    the replay through the second proxy, whose control request had passed;
    the third proxy passes its control request and delivers the page. *)
Definition twoTimeouts : nat -> Response :=
  script [NetOk threeProxies; NetOk "198.51.100.1";
          timedOut;
          NetOk "198.51.100.2"; timedOut;
          NetOk "198.51.100.3"; NetOk "<html>ok</html>"].

(** The control request of the second proxy times out; the third proxy
    answers its own control request and the replayed one. *)
Definition controlTimesOut : nat -> Response :=
  script [timedOut; NetOk "198.51.100.3"; NetOk "198.51.100.3"].

(** The source is down and the pool stays empty; the control request
    through the missing proxy is reset. *)
Definition emptyPoolReset : nat -> Response :=
  script [NetErr (CStr "ECONNREFUSED"); NetErr (CStr "ECONNRESET")].

(** Control requests are answered, or fail for good. *)
Definition controlTerminal : nat -> Response :=
  script [NetErr (CStr "ERR_BAD_RESPONSE")].

Definition page (n : nat) : RenderQueue.Task :=
  RenderQueue.mkTask n "https://example.test" false.

(** ** One render session: [fetchWithPuppeteer]

    The browser is outside the program: each call of its interface either
    returns or throws, as the parameter [world] says.  A call is made at
    most once in a session, so [world] may depend on the call alone. *)

(** A template literal prints a missing array entry as [undefined]. *)
Definition js_template (v : option string) : string :=
  match v with
  | Some s => s
  | None => "undefined"
  end.

(** Lines 151 to 159: the [args] of the launch options. *)
Definition launchArgs (useProxy : bool) (s : State) : list string :=
  let args := ["--no-sandbox"; "--disable-setuid-sandbox";
               "--disable-dev-shm-usage"; "--disable-gpu"] in
  if useProxy && (0 <? Z.of_nat (List.length (proxyList s)))
  then
    let proxy := ("http://"
                  ++ js_template (js_index (proxyList s) (currentProxyIndex s)))%string in
    (args ++ [("--proxy-server=" ++ proxy)%string])%list
  else args.

Module Render.

Inductive Call : Type :=
| Launch (args : list string)
| NewPage
| SetUserAgent
| SetRequestInterception
| Goto (url : string)
| Content
| BrowserClose
| PageClose
| RemoveAllListeners.

Inductive Answer : Type :=
| Returned (value : string)
| Threw (message : string).

Inductive Try (A : Type) : Type :=
| Ok (a : A)
| Thrown (message : string).
Arguments Ok {A} a.
Arguments Thrown {A} message.

(** A computation that calls the browser: its result, and the calls made
  so far in order. *)
Definition P (A : Type) : Type := list Call -> Try A * list Call.

Definition retP {A} (a : A) : P A := fun log => (Ok a, log).

Definition bindP {A B} (m : P A) (k : A -> P B) : P B :=
fun log =>
  match m log with
  | (Ok a, log') => k a log'
  | (Thrown e, log') => (Thrown e, log')
  end.

(** [try { body } finally { cleanup }]: the cleanup runs in every case,
  and what it throws takes the place of the outcome of the body. *)
Definition finally {A} (body : P A) (cleanup : P unit) : P A :=
fun log =>
  match body log with
  | (r, log') =>
      match cleanup log' with
      | (Ok _, log'') => (r, log'')
      | (Thrown e, log'') => (Thrown e, log'')
      end
  end.

(** The listener of lines 165 to 168: [true] when the request is
  aborted. *)
Definition abortsRequest (resourceType : string) : bool :=
String.eqb resourceType "image".

Section Session.
Variable world : Call -> Answer.

Definition call (c : Call) : P string :=
fun log =>
(match world c with
 | Returned v => Ok v
 | Threw e => Thrown e
 end, (log ++ [c])%list).

(** Lines 149 to 182.  The [catch] logs and throws the same error again;
[page.on] registers the listener and does not throw. *)
Definition fetchWithPuppeteer (url : string) (useProxy : bool) (s : State)
: Try string * list Call :=
bindP (call (Launch (launchArgs useProxy s))) (fun _ =>
bindP (call NewPage) (fun _ =>
bindP (call SetUserAgent) (fun _ =>
bindP (call SetRequestInterception) (fun _ =>
finally
(bindP (call (Goto url)) (fun _ => call Content))
(bindP (call BrowserClose) (fun _ =>
 bindP (call PageClose) (fun _ =>
 bindP (call RemoveAllListeners) (fun _ => retP tt)))))))) [].

End Session.

Definition returns (world : Call -> Answer) (c : Call) : Prop :=
exists v, world c = Returned v.

Definition throws (world : Call -> Answer) (c : Call) : Prop :=
exists e, world c = Threw e.

Fixpoint browserCloses (log : list Call) : nat :=
match log with
| [] => O
| BrowserClose :: log' => S (browserCloses log')
| _ :: log' => browserCloses log'
end.

Fixpoint pageCloses (log : list Call) : nat :=
match log with
| [] => O
| PageClose :: log' => S (pageCloses log')
| _ :: log' => pageCloses log'
end.

(** A browser in which everything works, and one whose [page.close]
  throws because the browser is gone already. *)
Definition healthy (c : Call) : Answer :=
match c with
| Content => Returned "<html>ok</html>"
| _ => Returned ""
end.

Definition pageGone (c : Call) : Answer :=
match c with
| PageClose => Threw "Protocol error: Target closed"
| c => healthy c
end.

Definition noPage (c : Call) : Answer :=
match c with
| NewPage => Threw "Target closed"
| c => healthy c
end.

End Render.

(** ** Networks for the scenarios of non-termination *)

Definition transientAt (net : nat -> Response) (n : nat) : Prop :=
  exists c, net n = NetErr c /\ isTransient c = true.

Definition okAt (net : nat -> Response) (n : nat) : Prop :=
  exists data, net n = NetOk data.

(** From request number [base] on, answers come in rounds of three: two
    transient failures (the page, then the control request through a
    proxy) and one success (the control request sent directly). *)
Definition roundsOfThree (net : nat -> Response) (base : nat) : Prop :=
  forall j, transientAt net (base + 3 * j)
            /\ transientAt net (base + 3 * j + 1)
            /\ okAt net (base + 3 * j + 2).

Definition allTimeout (n : nat) : Response := timedOut.

Definition everyThirdOk (n : nat) : Response :=
  if Nat.eqb (n mod 3) 2 then NetOk "198.51.100.9" else timedOut.

Definition pool2 : State :=
  set_proxyList ["1.1.1.1:8080"; "2.2.2.2:8080"] initialState.

Definition pool1 : State := set_proxyList ["1.1.1.1:8080"] initialState.

(** * Properties *)

(** ** Strings *)

Lemma split_not_nil sep s : split sep s <> [].
Proof.
  destruct s as [|c s]; simpl; [discriminate|].
  destruct (Ascii.eqb c sep); [discriminate|].
  destruct (split sep s); discriminate.
Qed.

Lemma split_fields_free sep s f :
  In f (split sep s) -> contains sep f = false.
Proof.
  revert f; induction s as [|c s IH]; simpl; intros f Hin.
  - destruct Hin as [<-|[]]; reflexivity.
  - destruct (Ascii.eqb c sep) eqn:E.
    + destruct Hin as [<-|Hin]; [reflexivity|auto].
    + destruct (split sep s) as [|h t] eqn:Es.
      * destruct Hin as [<-|[]]; simpl; now rewrite E.
      * destruct Hin as [<-|Hin].
        -- simpl; rewrite E; apply IH; now left.
        -- apply IH; now right.
Qed.

Lemma split_free sep s : contains sep s = false -> split sep s = [s].
Proof.
  induction s as [|c s IH]; simpl; intros H; [reflexivity|].
  apply orb_false_iff in H as [Hc Hs].
  rewrite Hc, (IH Hs); reflexivity.
Qed.

Lemma split_app_sep sep a b :
  contains sep a = false ->
  split sep (a ++ String sep b) = a :: split sep b.
Proof.
  induction a as [|c a IH]; simpl; intros H.
  - now rewrite Ascii.eqb_refl.
  - apply orb_false_iff in H as [Hc Ha].
    rewrite Hc, (IH Ha); reflexivity.
Qed.

Lemma truthy_iff s : truthy s = true <-> s <> "".
Proof. destruct s; simpl; split; congruence. Qed.

Lemma append_not_empty a c b : (a ++ String c b)%string <> "".
Proof. destruct a; discriminate. Qed.

(** The first two fields of a string, joined again, split into at most two
    fields. *)
Lemma first_two_fields s :
  let e := join ":" (slice0 2 (split COLON s)) in
  (List.length (split COLON e) <= 2)%nat /\ (e = "" <-> s = "").
Proof.
  pose proof (split_not_nil COLON s) as Hne.
  pose proof (split_fields_free COLON s) as Hfree.
  destruct (split COLON s) as [|a [|b t]] eqn:Es; [congruence| |].
  - (* a single field: the string itself *)
    assert (Ha : contains COLON a = false) by (apply Hfree; now left).
    assert (s = a) as ->.
    { pose proof (split_free COLON s) as Hs.
      destruct (contains COLON s) eqn:Ec.
      - exfalso. clear Hs Hfree Ha Hne. revert a Es Ec.
        induction s as [|c s IH]; simpl; intros a Es Ec; [discriminate|].
        destruct (Ascii.eqb c COLON) eqn:E.
        + pose proof (split_not_nil COLON s). destruct (split COLON s); congruence.
        + simpl in Ec. destruct (split COLON s) as [|h [|h' t']] eqn:Es'.
          * now apply (split_not_nil COLON s).
          * apply (IH h); auto.
          * discriminate.
      - rewrite Hs in Es by reflexivity. congruence. }
    simpl. rewrite (split_free COLON a Ha). simpl. split; [lia|tauto].
  - assert (Ha : contains COLON a = false) by (apply Hfree; now left).
    assert (Hb : contains COLON b = false) by (apply Hfree; right; now left).
    cbn [slice0 firstn join String.concat].
    change (a ++ ":" ++ b)%string with (a ++ String COLON b)%string.
    split.
    + rewrite (split_app_sep COLON a _ Ha), (split_free COLON _ Hb). simpl. lia.
    + split; intros H.
      * exfalso. now apply (append_not_empty a COLON b).
      * subst s. simpl in Es. discriminate.
Qed.

(** ** Refresh of the pool *)

Lemma normalizeProxy_fields line :
  let e := normalizeProxy line in
  (List.length (split COLON e) <= 2)%nat /\ (e = "" <-> trim line = "").
Proof. exact (first_two_fields (trim line)). Qed.

(** A trimmed line [host:port:extra] is kept as [host:port]. *)
Lemma normalizeProxy_host_port host port extra :
  contains COLON host = false ->
  contains COLON port = false ->
  let line := (host ++ String COLON (port ++ String COLON extra))%string in
  trim line = line ->
  normalizeProxy line = (host ++ String COLON port)%string.
Proof.
  intros Hh Hp line Ht. unfold normalizeProxy. rewrite Ht. unfold line.
  rewrite (split_app_sep COLON host _ Hh), (split_app_sep COLON port _ Hp).
  pose proof (split_not_nil COLON extra).
  destruct (split COLON extra); [congruence|]. reflexivity.
Qed.

Lemma parseProxyData_In data e :
  In e (parseProxyData data) <->
  e <> "" /\ exists line, In line (split LF data) /\ e = normalizeProxy line.
Proof.
  unfold parseProxyData. rewrite filter_In, in_map_iff, truthy_iff.
  split.
  - intros [(line & <- & Hin) Hne]. split; [assumption|]. now exists line.
  - intros [Hne (line & Hin & ->)]. split; [|assumption]. now exists line.
Qed.

(** Where no line has white space around it, the pipeline of the code and
    the wording of the design document give the same list. *)
Lemma parseProxyData_spec data :
  (forall line, In line (split LF data) -> trim line = line) ->
  parseProxyData data = spec_parseProxyData data.
Proof.
  unfold parseProxyData, spec_parseProxyData.
  induction (split LF data) as [|l ls IH]; intros Htrim; [reflexivity|].
  assert (Hl : trim l = l) by (apply Htrim; now left).
  assert (Hls : forall line, In line ls -> trim line = line)
    by (intros; apply Htrim; now right).
  specialize (IH Hls). simpl.
  destruct (normalizeProxy_fields l) as [_ Hemp]. rewrite Hl in Hemp.
  destruct l as [|c l].
  - simpl. exact IH.
  - destruct (normalizeProxy (String c l)) eqn:En.
    + exfalso. assert (String c l = "") by (apply Hemp; reflexivity). discriminate.
    + simpl. rewrite IH. f_equal.
      rewrite <- En. unfold normalizeProxy. now rewrite Hl.
Qed.

(** C9. A refresh whose request succeeds replaces the pool by the lines of
    the answer, each trimmed and cut to its first two colon-delimited
    fields joined by a colon, without the empty ones; it sets the index to
    0 and the time stamp to the current time. *)
Theorem C9_refresh_success
  (net : nat -> Response) (dateNow : nat -> Z) (env : option string)
  (s : State) (data : string) :
  isFetchingProxies s = false ->
  net (sent s) = NetOk data ->
  let out := fetchProxyList net dateNow env s in
  let s' := snd out in
  fst out = Resolved tt /\
  proxyList s' = filter truthy (map normalizeProxy (split LF data)) /\
  currentProxyIndex s' = Num 0 /\
  lastProxyFetchTime s' = dateNow (reads s) /\
  isFetchingProxies s' = false /\
  sent s' = S (sent s) /\
  (forall e, In e (proxyList s') ->
     e <> "" /\
     (List.length (split COLON e) <= 2)%nat /\
     exists line, In line (split LF data) /\
                  e = join ":" (slice0 2 (split COLON (trim line)))) /\
  (forall host port extra,
     let line := (host ++ String COLON (port ++ String COLON extra))%string in
     contains COLON host = false -> contains COLON port = false ->
     trim line = line -> In line (split LF data) ->
     In (host ++ String COLON port)%string (proxyList s')) /\
  ((forall line, In line (split LF data) -> trim line = line) ->
   proxyList s' = spec_parseProxyData data).
Proof.
  intros Hflag Hnet out s'.
  assert (Hout : out = (Resolved tt,
            fetchProxyList_resolved data (dateNow (reads s))
              (count_read (count_sent
                 (record (EvRequest plainInstance Direct (PROXY_URL env))
                         (set_isFetchingProxies true s)))))).
  { unfold out, fetchProxyList, send. rewrite Hflag. cbn. now rewrite Hnet. }
  unfold s'. rewrite Hout. cbn [fst snd].
  change (proxyList (fetchProxyList_resolved _ _ _)) with (parseProxyData data).
  split; [reflexivity|]. split; [reflexivity|]. split; [reflexivity|].
  split; [reflexivity|]. split; [reflexivity|]. split; [reflexivity|].
  split; [|split].
  - intros e He. apply parseProxyData_In in He as [Hne (line & Hin & ->)].
    split; [assumption|]. split; [apply normalizeProxy_fields|].
    now exists line.
  - intros host port extra Hh Hp Ht Hin.
    apply parseProxyData_In. split; [apply append_not_empty|].
    eexists. split; [exact Hin|].
    symmetry. now apply normalizeProxy_host_port.
  - apply parseProxyData_spec.
Qed.

Lemma C9_refresh_success_witness :
  proxyList (snd (fetchProxyList sourceUp (clockAt 1700000000000) None initialState))
  = ["1.1.1.1:8080"; "2.2.2.2:8080"; "3.3.3.3:8080"] /\
  lastProxyFetchTime
    (snd (fetchProxyList sourceUp (clockAt 1700000000000) None initialState))
  = 1700000000000.
Proof.
  pose proof (C9_refresh_success sourceUp (clockAt 1700000000000) None
                initialState sourceData eq_refl eq_refl) as H.
  cbv zeta in H.
  destruct H as (_ & Hlist & _ & Htime & _).
  split; [rewrite Hlist; reflexivity | rewrite Htime; reflexivity].
Defined.

(** C10. A refresh whose request fails leaves the list, the index and the
    time stamp as they were, returns normally, and leaves the condition of
    [refreshProxyListIfNeeded] as true as it was: the next call asks the
    source again. *)
Theorem C10_refresh_failure
  (net : nat -> Response) (dateNow : nat -> Z) (env : option string)
  (s : State) (c : JsCode) :
  isFetchingProxies s = false ->
  net (sent s) = NetErr c ->
  let out := fetchProxyList net dateNow env s in
  let s' := snd out in
  fst out = Resolved tt /\
  proxyList s' = proxyList s /\
  currentProxyIndex s' = currentProxyIndex s /\
  lastProxyFetchTime s' = lastProxyFetchTime s /\
  isFetchingProxies s' = false /\
  (forall now now', refreshNeeded now s = true -> now <= now' ->
                    refreshNeeded now' s' = true) /\
  (forall now, refreshNeeded now s = true -> now <= dateNow (reads s') ->
     sent (snd (refreshProxyListIfNeeded net dateNow env s')) = S (sent s')).
Proof.
  intros Hflag Hnet out s'.
  assert (Hout : out = (Resolved tt,
            fetchProxyList_rejected
              (count_sent (record (EvRequest plainInstance Direct (PROXY_URL env))
                                  (set_isFetchingProxies true s))))).
  { unfold out, fetchProxyList, send. rewrite Hflag. cbn. now rewrite Hnet. }
  assert (Hmono : forall now now', refreshNeeded now s = true -> now <= now' ->
                    refreshNeeded now' s' = true).
  { intros now now' Hn Hle. unfold s'. rewrite Hout.
    unfold refreshNeeded in *. cbn [lastProxyFetchTime proxyList snd
      fetchProxyList_rejected set_isFetchingProxies count_sent record].
    apply orb_true_iff in Hn as [Hn|Hn]; apply orb_true_iff; [left|now right].
    apply Z.ltb_lt in Hn. apply Z.ltb_lt. lia. }
  repeat split; try (unfold s'; rewrite Hout; reflexivity); try exact Hmono.
  intros now Hn Hle.
  specialize (Hmono now _ Hn Hle).
  unfold refreshProxyListIfNeeded, bind, Date_now, gets. cbn.
  change (refreshNeeded (dateNow (reads s')) (count_read s'))
    with (refreshNeeded (dateNow (reads s')) s').
  rewrite Hmono. unfold fetchProxyList, send.
  assert (Hf : isFetchingProxies (count_read s') = false)
    by (unfold s'; rewrite Hout; reflexivity).
  rewrite Hf. cbn. destruct (net (sent s')); reflexivity.
Qed.

Lemma C10_refresh_failure_witness :
  let s' := snd (fetchProxyList sourceDown (clockAt 5) None pool3) in
  proxyList s' = proxyList pool3 /\
  lastProxyFetchTime s' = 0 /\
  sent (snd (refreshProxyListIfNeeded sourceDown (clockAt 3600002) None
               (snd (fetchProxyList sourceDown (clockAt 3600002) None pool3)))) = 2%nat.
Proof.
  pose proof (C10_refresh_failure sourceDown (clockAt 5) None pool3
                (CStr "ECONNREFUSED") eq_refl eq_refl) as H.
  pose proof (C10_refresh_failure sourceDown (clockAt 3600002) None pool3
                (CStr "ECONNREFUSED") eq_refl eq_refl) as H2.
  cbv zeta in H, H2.
  destruct H as (_ & Hl & _ & Ht & _).
  destruct H2 as (_ & _ & _ & _ & _ & _ & Hretry).
  cbv zeta. split; [exact Hl|]. split; [exact Ht|].
  rewrite (Hretry 3600002); [reflexivity | reflexivity | ].
  unfold clockAt. lia.
Defined.

(** ** The rotating client: equations of the model *)

Section ClientFacts.

Local Open Scope list_scope.

Variable net : nat -> Response.

Lemma setupAxiosInstanceWithProxy__eq call s :
  setupAxiosInstanceWithProxy_ call s
  = match call (proxied s) (getUrl IPIFY) (installed s) with
    | (Resolved _, s') => (Resolved (axiosInstance s'), s')
    | (Rejected e, s') => (Rejected e, s')
    | (Waits, s') => (Waits, s')
    | (NoFuel, s') => (NoFuel, s')
    end.
Proof.
  assert (E : forall x y : Result string * State, x = y ->
            (let (r, s') := x in
             match r with
             | Resolved _ => (Resolved (axiosInstance s'), s')
             | Rejected e => (Rejected e, s')
             | Waits => (Waits, s')
             | NoFuel => (NoFuel, s')
             end)
            = match y with
              | (Resolved _, s') => (Resolved (axiosInstance s'), s')
              | (Rejected e, s') => (Rejected e, s')
              | (Waits, s') => (Waits, s')
              | (NoFuel, s') => (NoFuel, s')
              end :> Result AxiosInstance * State).
  { intros x y <-. destruct x as [[] ?]; reflexivity. }
  unfold setupAxiosInstanceWithProxy_, bind, gets, modify. cbn.
  apply E. reflexivity.
Qed.

Lemma rotateProxy__eq call s :
  rotateProxy_ call s
  = if js_strict_eq (nextIndex s) (Num 0)
    then (Resolved plainInstance, rotated s)
    else setupAxiosInstanceWithProxy_ call (rotated s).
Proof.
  unfold rotateProxy_, bind, gets, modify. cbn.
  change (record _ (set_currentProxyIndex (nextIndex s) s)) with (rotated s).
  destruct (js_strict_eq (nextIndex s) (Num 0)); reflexivity.
Qed.

Lemma request_eq fuel via cfg s :
  request net (S fuel) via cfg s
  = match net (sent s) with
    | NetOk data => (Resolved data, requested via (mergeConfig via cfg) s)
    | NetErr c =>
        if interceptors via
        then onRejected (request net fuel) (mkError c (mergeConfig via cfg))
                        (requested via (mergeConfig via cfg) s)
        else (Rejected (mkError c (mergeConfig via cfg)),
              requested via (mergeConfig via cfg) s)
    end.
Proof. cbn. unfold send. destruct (net (sent s)); reflexivity. Qed.

Lemma onRejected_eq call e s :
  onRejected call e s
  = if isTransient (code e)
    then match rotateProxy_ call s with
         | (Resolved a, s') => call a (config e) s'
         | (Rejected e', s') => (Rejected e', s')
         | (Waits, s') => (Waits, s')
         | (NoFuel, s') => (NoFuel, s')
         end
    else (Rejected e, s).
Proof.
  unfold onRejected. destruct (isTransient (code e)); [|reflexivity].
  unfold bind. destruct (rotateProxy_ call s) as [[]]; reflexivity.
Qed.

(** A request without interceptor: one answer, handed over as it is. *)
Lemma request_plain fuel via cfg s :
  interceptors via = false ->
  request net (S fuel) via cfg s
  = (settleWith (net (sent s)) (mergeConfig via cfg),
     requested via (mergeConfig via cfg) s).
Proof.
  intros H. rewrite request_eq, H. destruct (net (sent s)); reflexivity.
Qed.

(** ** The trace only grows *)

Lemma extends_refl s : extends s s.
Proof. exists []. now rewrite app_nil_r. Qed.

Lemma extends_trans s1 s2 s3 : extends s1 s2 -> extends s2 s3 -> extends s1 s3.
Proof.
  intros [t1 H1] [t2 H2]. exists (t1 ++ t2). now rewrite H2, H1, app_assoc.
Qed.

Lemma extends_step s s' e t :
  trace s' = trace s ++ [e] -> extends s' t ->
  exists r, trace t = trace s ++ e :: r.
Proof.
  intros H [r Hr]. exists r. now rewrite Hr, H, <- app_assoc.
Qed.

Lemma setup_extends call s :
  (forall a u x, extends x (snd (call a u x))) ->
  extends s (snd (setupAxiosInstanceWithProxy_ call s)).
Proof.
  intros Hc. rewrite setupAxiosInstanceWithProxy__eq.
  pose proof (Hc (proxied s) (getUrl IPIFY) (installed s)) as H.
  destruct (call (proxied s) (getUrl IPIFY) (installed s)) as [[] s']; exact H.
Qed.

Lemma rotate_extends call s :
  (forall a u x, extends x (snd (call a u x))) ->
  exists r, trace (snd (rotateProxy_ call s))
            = trace s ++ EvRotate (nextIndex s) :: r.
Proof.
  intros Hc. rewrite rotateProxy__eq.
  apply (extends_step s (rotated s)); [reflexivity|].
  destruct (js_strict_eq (nextIndex s) (Num 0)).
  - apply extends_refl.
  - now apply setup_extends.
Qed.

Lemma request_extends fuel via cfg s :
  extends s (snd (request net fuel via cfg s)).
Proof.
  revert via cfg s. induction fuel as [|fuel IH]; intros via cfg s.
  - apply extends_refl.
  - rewrite request_eq. set (m := mergeConfig via cfg).
    assert (Hreq : extends s (requested via m s))
      by (exists [EvRequest via (cfg_agents m) (cfg_url m)]; reflexivity).
    destruct (net (sent s)) as [d|c]; [exact Hreq|].
    destruct (interceptors via); [|exact Hreq].
    rewrite onRejected_eq. cbn [code config].
    destruct (isTransient c); [|exact Hreq].
    destruct (rotate_extends (request net fuel) (requested via m s) IH)
      as [r Hr].
    assert (Hrot : extends s (snd (rotateProxy_ (request net fuel)
                                     (requested via m s)))).
    { eapply extends_trans; [exact Hreq|]. eexists; exact Hr. }
    destruct (rotateProxy_ (request net fuel) (requested via m s))
      as [[a|e| |] s'] eqn:E; cbn [snd] in *; try exact Hrot.
    eapply extends_trans; [exact Hrot|apply IH].
Qed.

(** A request records itself first: who issues it, and the agents and
    the URL of its merged configuration. *)
Lemma request_trace fuel via cfg s :
  exists r, trace (snd (request net (S fuel) via cfg s))
            = trace s ++ EvRequest via
                           (mergeAgents (transport via) (cfg_agents cfg))
                           (cfg_url cfg) :: r.
Proof.
  rewrite request_eq. set (m := mergeConfig via cfg).
  assert (Hreq : trace (requested via m s)
                 = trace s ++ [EvRequest via (cfg_agents m) (cfg_url m)])
    by reflexivity.
  assert (H0 : exists r, trace (requested via m s)
                         = trace s ++ EvRequest via (cfg_agents m) (cfg_url m) :: r)
    by (exists []; exact Hreq).
  destruct (net (sent s)) as [d|c]; [exact H0|].
  destruct (interceptors via); [|exact H0].
  rewrite onRejected_eq. cbn [code config].
  destruct (isTransient c); [|exact H0].
  apply (extends_step s (requested via m s)); [exact Hreq|].
  pose proof (rotate_extends (request net fuel) (requested via m s)
                (request_extends fuel)) as [r Hr].
  assert (Hrot : extends (requested via m s)
                   (snd (rotateProxy_ (request net fuel) (requested via m s))))
    by (eexists; exact Hr).
  destruct (rotateProxy_ (request net fuel) (requested via m s))
    as [[a|e| |] s']; cbn [snd config] in *; try exact Hrot.
  eapply extends_trans; [exact Hrot|apply request_extends].
Qed.

End ClientFacts.

Lemma countRotations_app t1 t2 :
  countRotations (t1 ++ t2)%list = (countRotations t1 + countRotations t2)%nat.
Proof.
  induction t1 as [|[via route url|i] t1 IH]; cbn;
    [reflexivity|exact IH|now rewrite IH].
Qed.

(** The agents named by a configuration survive every later merge. *)
Lemma mergeConfig_keeps a m p :
  cfg_agents m = ViaProxy p -> mergeConfig a m = m.
Proof. destruct m as [u g]. cbn. intros ->. reflexivity. Qed.

Lemma mergeConfig_idem a cfg : mergeConfig a (mergeConfig a cfg) = mergeConfig a cfg.
Proof.
  destruct cfg as [u g], a as [t i]. unfold mergeConfig. cbn.
  destruct g; [destruct t|]; reflexivity.
Qed.


(** ** Classification of failures *)

Lemma isTransient_iff c :
  isTransient c = true <->
  c = CStr "ECONNABORTED" \/ c = CStr "ECONNRESET" \/ c = CStr "ETIMEDOUT" \/
  c = CStr "ERR_BAD_REQUEST" \/ c = CUndefined \/ c = CNull.
Proof.
  destruct c as [| |s]; unfold isTransient; cbn.
  - intuition congruence.
  - intuition congruence.
  - rewrite !orb_false_r, !orb_true_iff, !String.eqb_eq.
    split.
    + intros [H|[H|[H|H]]]; subst; auto 6.
    + intros [H|[H|[H|[H|[H|H]]]]]; try discriminate;
        injection H as ->; auto.
Qed.

(** After a transient failure on an instance with the interceptor, the
    next thing that happens is a rotation; the replay, with the merged
    configuration of the failed request, follows it. *)
Lemma request_transient net fuel via cfg s c :
  interceptors via = true -> net (sent s) = NetErr c ->
  isTransient c = true ->
  request net (S fuel) via cfg s
  = bind (rotateProxy net fuel)
         (fun a => request net fuel a (mergeConfig via cfg))
         (requested via (mergeConfig via cfg) s) /\
  exists r, trace (snd (request net (S fuel) via cfg s))
            = (trace s ++ EvRequest via (cfg_agents (mergeConfig via cfg))
                                    (cfg_url (mergeConfig via cfg))
                 :: EvRotate (nextIndex s) :: r)%list.
Proof.
  intros Hi Hn Ht. set (m := mergeConfig via cfg).
  assert (E : request net (S fuel) via cfg s
              = bind (rotateProxy net fuel) (fun a => request net fuel a m)
                     (requested via m s)).
  { rewrite request_eq, Hn, Hi. unfold onRejected. cbn [code config].
    now rewrite Ht. }
  split; [exact E|]. rewrite E. unfold bind, rotateProxy.
  destruct (rotate_extends (request net fuel) (requested via m s)
              (request_extends net fuel)) as [r Hr].
  change (nextIndex (requested via m s)) with (nextIndex s) in Hr.
  change (trace (requested via m s))
    with (trace s ++ [EvRequest via (cfg_agents m) (cfg_url m)])%list in Hr.
  rewrite <- app_assoc in Hr. cbn [app] in Hr.
  destruct (rotateProxy_ (request net fuel) (requested via m s))
    as [[a|e| |] s'] eqn:Erot; cbn [snd] in *; try (now exists r).
  destruct (request_extends net fuel a m s') as [r' Hr'].
  exists (r ++ r')%list. rewrite Hr', Hr, <- app_assoc. reflexivity.
Qed.

(** A failure that is not transient passes through the handler. *)
Lemma request_terminal net fuel via cfg s c :
  interceptors via = true -> net (sent s) = NetErr c ->
  isTransient c = false ->
  request net (S fuel) via cfg s
  = (Rejected (mkError c (mergeConfig via cfg)),
     requested via (mergeConfig via cfg) s).
Proof.
  intros Hi Hn Ht.
  rewrite request_eq, Hn, Hi, onRejected_eq. cbn [code]. now rewrite Ht.
Qed.

(** ** Rotation *)

Section Rotation.

Variable net : nat -> Response.

Lemma nextIndex_in_range s i :
  currentProxyIndex s = Num i ->
  0 <= i < Z.of_nat (List.length (proxyList s)) ->
  nextIndex s = Num ((i + 1) mod Z.of_nat (List.length (proxyList s))).
Proof.
  intros Hi Hr. unfold nextIndex, js_length. rewrite Hi. cbn.
  destruct (Z.eqb_spec (Z.of_nat (List.length (proxyList s))) 0) as [E|E]; [lia|].
  f_equal. apply Z.rem_mod_nonneg; lia.
Qed.

(** A rotation that lands on a proxy sends the control request through
    the new instance; what happens next depends on its answer. *)
Lemma rotateProxy_lands fuel s :
  js_strict_eq (nextIndex s) (Num 0) = false ->
  rotateProxy net (S fuel) s
  = match net (sent s) with
    | NetOk _ => (Resolved (proxied (rotated s)), validating (rotated s))
    | NetErr c =>
        if isTransient c
        then match rotateProxy net fuel (validating (rotated s)) with
             | (Resolved a, s') =>
                 match request net fuel a (controlConfig (rotated s)) s' with
                 | (Resolved _, s'') => (Resolved (axiosInstance s''), s'')
                 | (Rejected e, s'') => (Rejected e, s'')
                 | (Waits, s'') => (Waits, s'')
                 | (NoFuel, s'') => (NoFuel, s'')
                 end
             | (Rejected e, s') => (Rejected e, s')
             | (Waits, s') => (Waits, s')
             | (NoFuel, s') => (NoFuel, s')
             end
        else (Rejected (mkError c (controlConfig (rotated s))),
              validating (rotated s))
    end.
Proof.
  intros Hz. unfold rotateProxy at 1.
  rewrite rotateProxy__eq, Hz, setupAxiosInstanceWithProxy__eq, request_eq.
  change (sent (installed (rotated s))) with (sent s).
  change (mergeConfig (proxied (rotated s)) (getUrl IPIFY))
    with (controlConfig (rotated s)).
  change (requested (proxied (rotated s)) (controlConfig (rotated s))
                    (installed (rotated s)))
    with (validating (rotated s)).
  destruct (net (sent s)) as [d|c]; [reflexivity|].
  cbn [interceptors proxied]. rewrite onRejected_eq. cbn [code config].
  destruct (isTransient c); [|reflexivity].
  fold (rotateProxy net fuel).
  destruct (rotateProxy net fuel (validating (rotated s))) as [[a|e| |] s'];
    reflexivity.
Qed.

Lemma rotateProxy_wraps fuel s :
  js_strict_eq (nextIndex s) (Num 0) = true ->
  rotateProxy net fuel s = (Resolved plainInstance, rotated s).
Proof. intros Hz. unfold rotateProxy. now rewrite rotateProxy__eq, Hz. Qed.

(** No control request fails with a transient code. *)
Hypothesis control_final : forall n c, net n = NetErr c -> isTransient c = false.

Lemma rotateProxy_once fuel s :
  rotateProxy net (S fuel) s
  = if js_strict_eq (nextIndex s) (Num 0)
    then (Resolved plainInstance, rotated s)
    else (match net (sent s) with
          | NetOk _ => Resolved (proxied (rotated s))
          | NetErr c => Rejected (mkError c (controlConfig (rotated s)))
          end, validating (rotated s)).
Proof.
  destruct (js_strict_eq (nextIndex s) (Num 0)) eqn:Hz.
  - now apply rotateProxy_wraps.
  - rewrite (rotateProxy_lands fuel s Hz).
    destruct (net (sent s)) as [d|c] eqn:E; [reflexivity|].
    now rewrite (control_final _ _ E).
Qed.

Lemma rotateProxy_once_state fuel s :
  currentProxyIndex (snd (rotateProxy net (S fuel) s)) = nextIndex s /\
  proxyList (snd (rotateProxy net (S fuel) s)) = proxyList s.
Proof.
  rewrite rotateProxy_once.
  destruct (js_strict_eq (nextIndex s) (Num 0)); split; reflexivity.
Qed.

Lemma rotateTimes_index fuel k : forall s i,
  currentProxyIndex s = Num i ->
  0 <= i < Z.of_nat (List.length (proxyList s)) ->
  currentProxyIndex (rotateTimes net (S fuel) k s)
  = Num ((i + Z.of_nat k) mod Z.of_nat (List.length (proxyList s))).
Proof.
  induction k as [|k IH]; intros s i Hi Hr.
  - cbn [rotateTimes]. rewrite Z.add_0_r, Z.mod_small by lia. exact Hi.
  - cbn [rotateTimes].
    destruct (rotateProxy_once_state fuel s) as [Hidx Hlist].
    rewrite (nextIndex_in_range s i Hi Hr) in Hidx.
    rewrite (IH _ _ Hidx); rewrite Hlist.
    + f_equal. rewrite Zplus_mod_idemp_l. f_equal. lia.
    + apply Z.mod_pos_bound. lia.
Qed.

End Rotation.

(** What a proxied call comes to when the pool needs no refresh: the
    control request of the current proxy, then the page. *)
Lemma fetchNetwork_fresh net dateNow env fuel url s :
  refreshNeeded (dateNow (reads s)) s = false ->
  fetchNetwork net dateNow env fuel url true s
  = match request net fuel (proxied s) (getUrl IPIFY) (installed (count_read s)) with
    | (Resolved _, s') => request net fuel (axiosInstance s') (getUrl url) s'
    | (Rejected e, s') => (Rejected e, s')
    | (Waits, s') => (Waits, s')
    | (NoFuel, s') => (NoFuel, s')
    end.
Proof.
  intros Hfresh.
  unfold fetchNetwork, getAxiosInstance. cbn [negb].
  unfold bind at 1 2. unfold refreshProxyListIfNeeded, bind at 1 2, Date_now, gets.
  cbn [fst snd].
  change (refreshNeeded (dateNow (reads s)) (count_read s))
    with (refreshNeeded (dateNow (reads s)) s).
  rewrite Hfresh. unfold ret. unfold setupAxiosInstanceWithProxy.
  rewrite setupAxiosInstanceWithProxy__eq.
  change (proxied (count_read s)) with (proxied s).
  destruct (request net fuel (proxied s) (getUrl IPIFY) (installed (count_read s)))
    as [[] s']; reflexivity.
Qed.

(** A call without a proxy is one request by the plain instance. *)
Lemma fetchNetwork_direct net dateNow env fuel url s :
  fetchNetwork net dateNow env (S fuel) url false s
  = (settleWith (net (sent s)) (getUrl url),
     requested plainInstance (getUrl url) s).
Proof.
  unfold fetchNetwork, getAxiosInstance. cbn [negb]. unfold bind, ret.
  now rewrite request_plain.
Qed.

(** C1, as the code has it.  In a pool of N >= 1 proxies whose control
    requests do not fail with a transient code, [rotateProxy] advances
    the index by one modulo N.  When the new index is 0 it hands back the
    plain instance without a proxy; otherwise, the control request having
    succeeded, the instance of the proxy at the new index.  N rotations
    lead back to the index they started from.  From index 0, one rotation
    selects the second proxy of the list when N >= 2, and hands back the
    plain instance when N = 1. *)
Theorem C1_rotation_period_N
  (net : nat -> Response) (fuel : nat) (s : State) (i : Z) :
  (forall n c, net n = NetErr c -> isTransient c = false) ->
  let N := Z.of_nat (List.length (proxyList s)) in
  currentProxyIndex s = Num i ->
  0 <= i < N ->
  let out := rotateProxy net (S fuel) s in
  currentProxyIndex (snd out) = Num ((i + 1) mod N) /\
  proxyList (snd out) = proxyList s /\
  ((i + 1) mod N = 0 -> out = (Resolved plainInstance, rotated s)) /\
  ((i + 1) mod N <> 0 ->
   forall data, net (sent s) = NetOk data ->
     fst out = Resolved (mkInstance
                 (ViaProxy (nth_error (proxyList s) (Z.to_nat ((i + 1) mod N))))
                 true)) /\
  (forall k, currentProxyIndex (rotateTimes net (S fuel) k s)
             = Num ((i + Z.of_nat k) mod N)) /\
  currentProxyIndex (rotateTimes net (S fuel) (List.length (proxyList s)) s)
  = Num i /\
  (i = 0 -> 2 <= N ->
   currentProxyIndex (snd out) = Num 1 /\
   forall data, net (sent s) = NetOk data ->
     fst out = Resolved (mkInstance (ViaProxy (nth_error (proxyList s) 1)) true)) /\
  (N = 1 ->
   out = (Resolved plainInstance, rotated s) /\
   currentProxyIndex (snd out) = Num 0 /\ sent (snd out) = sent s).
Proof.
  intros Hnet N Hi Hr out.
  pose proof (nextIndex_in_range s i Hi Hr) as Hnext. fold N in Hnext.
  pose proof (rotateProxy_once net Hnet fuel s) as Hout. fold out in Hout.
  destruct (rotateProxy_once_state net Hnet fuel s) as [Hidx Hlist].
  fold out in Hidx, Hlist.
  assert (Hpos : 0 <= (i + 1) mod N < N) by (apply Z.mod_pos_bound; lia).
  assert (Hwrap : (i + 1) mod N = 0 -> out = (Resolved plainInstance, rotated s)).
  { intros Hz. rewrite Hout, Hnext, Hz. reflexivity. }
  assert (Hland : (i + 1) mod N <> 0 ->
            forall data, net (sent s) = NetOk data ->
            fst out = Resolved (mkInstance
                        (ViaProxy (nth_error (proxyList s)
                                     (Z.to_nat ((i + 1) mod N)))) true)).
  { intros Hnz data Hd. rewrite Hout, Hnext. cbn [js_strict_eq].
    destruct (Z.eqb_spec ((i + 1) mod N) 0) as [E|_]; [contradiction|].
    rewrite Hd. cbn [fst]. unfold proxied.
    change (currentProxyIndex (rotated s)) with (nextIndex s).
    change (proxyList (rotated s)) with (proxyList s).
    rewrite Hnext. cbn [js_index].
    destruct (Z.ltb_spec ((i + 1) mod N) 0) as [E|_]; [lia|]. reflexivity. }
  split; [now rewrite Hidx|]. split; [exact Hlist|].
  split; [exact Hwrap|]. split; [exact Hland|].
  split; [|split; [|split]].
  - intros k. now apply rotateTimes_index.
  - rewrite (rotateTimes_index net Hnet fuel _ s i Hi Hr). fold N.
    rewrite <- (Z.mul_1_l N) at 1. rewrite Z.mod_add by lia.
    now rewrite Z.mod_small.
  - intros -> HN.
    assert (H1 : (0 + 1) mod N = 1) by (apply Z.mod_small; lia).
    split; [now rewrite Hidx, Hnext, H1|].
    intros data Hd. rewrite (Hland ltac:(lia) data Hd), H1. reflexivity.
  - intros HN.
    assert (H0 : (i + 1) mod N = 0).
    { rewrite HN. apply Z.mod_1_r. }
    rewrite (Hwrap H0). cbn [snd]. split; [reflexivity|].
    split; [|reflexivity].
    change (currentProxyIndex (rotated s)) with (nextIndex s).
    now rewrite Hnext, H0.
Qed.

Lemma allOk_final : forall n c, allOk n = NetErr c -> isTransient c = false.
Proof. intros n c H. discriminate H. Qed.

Lemma C1_rotation_period_N_witness :
  currentProxyIndex (snd (rotateProxy allOk 1 pool3)) = Num 1 /\
  fst (rotateProxy allOk 1 pool3)
  = Resolved (mkInstance (ViaProxy (Some "2.2.2.2:8080")) true) /\
  currentProxyIndex (rotateTimes allOk 1 3 pool3) = Num 0 /\
  rotateProxy allOk 1 pool1 = (Resolved plainInstance, rotated pool1).
Proof.
  pose proof (C1_rotation_period_N allOk 0 pool3 0 allOk_final eq_refl) as H.
  pose proof (C1_rotation_period_N allOk 0 pool1 0 allOk_final eq_refl) as H'.
  cbv zeta in H, H'.
  assert (Hr : 0 <= 0 < Z.of_nat (List.length (proxyList pool3)))
    by (cbn; lia).
  assert (Hr' : 0 <= 0 < Z.of_nat (List.length (proxyList pool1)))
    by (cbn; lia).
  destruct (H Hr) as (_ & _ & _ & _ & _ & H3 & H2 & _).
  destruct (H' Hr') as (_ & _ & _ & _ & _ & _ & _ & H1).
  destruct (H2 eq_refl ltac:(cbn; lia)) as [Hi Hp].
  split; [exact Hi|]. split; [exact (Hp "ok" eq_refl)|].
  split; [exact H3|]. exact (proj1 (H1 eq_refl)).
Defined.

(** C1 as worded fails on the list of three: from index 0 one rotation
    selects the second proxy, not the first, and four rotations end on
    index 1, not in the state they started from; where the design
    document's arithmetic has a fourth slot, the code's wraps to 0. *)
Lemma C1_counterexample :
  fst (rotateProxy allOk 1 pool3)
    = Resolved (mkInstance (ViaProxy (Some "2.2.2.2:8080")) true) /\
  fst (rotateProxy allOk 1 pool3)
    <> Resolved (mkInstance (ViaProxy (Some "1.1.1.1:8080")) true) /\
  currentProxyIndex (rotateTimes allOk 1 4 pool3) = Num 1 /\
  currentProxyIndex (rotateTimes allOk 1 4 pool3) <> currentProxyIndex pool3 /\
  nextIndex (set_currentProxyIndex (Num 2) pool3) = Num 0 /\
  spec_nextIndex (set_currentProxyIndex (Num 2) pool3) = Num 3.
Proof.
  split; [reflexivity|]. split; [discriminate|]. split; [reflexivity|].
  split; [discriminate|]. split; reflexivity.
Qed.

(** C7, as the code has it.  A rotation that lands on a proxy sends the
    control request through the new instance, interceptor installed and
    by the agents of that instance, before it returns anything.  If the
    control request succeeds the new instance is returned.  If it fails
    with a code that is not transient, the rotation is rejected with that
    failure, the index stays on the new position and nothing else is
    rotated.  If it fails with a transient code, the interceptor rotates
    once more before the rotation settles, and the rotation settles with
    what that further rotation and the replay of the control request
    give. *)
Theorem C7_rotation_validates
  (net : nat -> Response) (fuel : nat) (s : State) :
  js_strict_eq (nextIndex s) (Num 0) = false ->
  let out := rotateProxy net (S fuel) s in
  let control :=
    EvRequest (proxied (rotated s)) (transport (proxied (rotated s))) IPIFY in
  (exists r, trace (snd out)
             = (trace s ++ EvRotate (nextIndex s) :: control :: r)%list) /\
  interceptors (proxied (rotated s)) = true /\
  (forall data, net (sent s) = NetOk data ->
     out = (Resolved (proxied (rotated s)), validating (rotated s))) /\
  (forall c, net (sent s) = NetErr c -> isTransient c = false ->
     out = (Rejected (mkError c (controlConfig (rotated s))),
            validating (rotated s)) /\
     currentProxyIndex (snd out) = nextIndex s /\
     trace (snd out)
     = (trace s ++ [EvRotate (nextIndex s); control])%list) /\
  (forall c, net (sent s) = NetErr c -> isTransient c = true ->
     (exists r, trace (snd out)
                = (trace s ++ EvRotate (nextIndex s) :: control
                     :: EvRotate (nextIndex (rotated s)) :: r)%list) /\
     out = match rotateProxy net fuel (validating (rotated s)) with
           | (Resolved a, s') =>
               match request net fuel a (controlConfig (rotated s)) s' with
               | (Resolved _, s'') => (Resolved (axiosInstance s''), s'')
               | (Rejected e, s'') => (Rejected e, s'')
               | (Waits, s'') => (Waits, s'')
               | (NoFuel, s'') => (NoFuel, s'')
               end
           | (Rejected e, s') => (Rejected e, s')
           | (Waits, s') => (Waits, s')
           | (NoFuel, s') => (NoFuel, s')
           end).
Proof.
  intros Hz out control.
  pose proof (rotateProxy_lands net fuel s Hz) as Hout. fold out in Hout.
  assert (Htr : trace (validating (rotated s))
                = (trace s ++ [EvRotate (nextIndex s); control])%list).
  { cbn [validating requested installed rotated record count_sent
         set_axiosInstance set_currentProxyIndex trace].
    now rewrite <- app_assoc. }
  assert (Hgrow : forall t, extends (validating (rotated s)) t ->
            exists r, trace t
                      = (trace s ++ EvRotate (nextIndex s) :: control :: r)%list).
  { intros t [r Hr]. exists r. rewrite Hr, Htr, <- app_assoc. reflexivity. }
  assert (Hrot : forall c, net (sent s) = NetErr c -> isTransient c = true ->
            exists r, trace (snd out)
               = (trace s ++ EvRotate (nextIndex s) :: control
                    :: EvRotate (nextIndex (rotated s)) :: r)%list).
  { intros c Hc Ht. rewrite Hout, Hc, Ht.
    destruct (rotate_extends (request net fuel) (validating (rotated s))
                (request_extends net fuel)) as [r Hr].
    fold (rotateProxy net fuel) in Hr.
    change (nextIndex (validating (rotated s))) with (nextIndex (rotated s)) in Hr.
    rewrite Htr, <- app_assoc in Hr. cbn [app] in Hr.
    destruct (rotateProxy net fuel (validating (rotated s))) as [[a|e| |] s'];
      cbn [snd] in *; try (now exists r).
    destruct (request_extends net fuel a (controlConfig (rotated s)) s')
      as [r' Hr'].
    exists (r ++ r')%list.
    destruct (request net fuel a (controlConfig (rotated s)) s') as [[] s''];
      cbn [snd] in *; rewrite Hr', Hr, <- app_assoc; reflexivity. }
  split; [|split; [reflexivity|split; [|split]]].
  - destruct (net (sent s)) as [d|c] eqn:E.
    + rewrite Hout. apply Hgrow, extends_refl.
    + destruct (isTransient c) eqn:Ht.
      * destruct (Hrot c eq_refl Ht) as [r Hr]. eexists. exact Hr.
      * rewrite Hout. apply Hgrow, extends_refl.
  - intros data Hd. now rewrite Hout, Hd.
  - intros c Hc Ht. rewrite Hout, Hc, Ht. cbn [snd].
    split; [reflexivity|]. split; [reflexivity|exact Htr].
  - intros c Hc Ht. split; [now apply (Hrot c)|].
    now rewrite Hout, Hc, Ht.
Qed.

Lemma C7_rotation_validates_witness :
  rotateProxy controlTerminal 1 pool3
  = (Rejected (mkError (CStr "ERR_BAD_RESPONSE")
                       (mkConfig IPIFY (ViaProxy (Some "2.2.2.2:8080")))),
     validating (rotated pool3)) /\
  currentProxyIndex (snd (rotateProxy controlTerminal 1 pool3)) = Num 1 /\
  countRotations (trace (snd (rotateProxy controlTerminal 1 pool3))) = 1%nat.
Proof.
  pose proof (C7_rotation_validates controlTerminal 0 pool3 eq_refl) as H.
  cbv zeta in H. destruct H as (_ & _ & _ & Hterm & _).
  destruct (Hterm (CStr "ERR_BAD_RESPONSE") eq_refl eq_refl) as (Hout & Hidx & Htr).
  split; [exact Hout|]. split; [exact Hidx|]. rewrite Htr. reflexivity.
Defined.

(** C7 as worded fails when the control request times out: the rotation
    is not rejected, a second rotation follows on its own, and the index
    ends one position further than the rotation that was asked for. *)
Lemma C7_counterexample :
  controlTimesOut (sent pool3) = NetErr (CStr "ETIMEDOUT") /\
  fst (rotateProxy controlTimesOut 3 pool3)
  = Resolved (mkInstance (ViaProxy (Some "3.3.3.3:8080")) true) /\
  currentProxyIndex (snd (rotateProxy controlTimesOut 3 pool3)) = Num 2 /\
  currentProxyIndex (snd (rotateProxy controlTimesOut 3 pool3)) <> nextIndex pool3 /\
  countRotations (trace (snd (rotateProxy controlTimesOut 3 pool3))) = 2%nat.
Proof.
  split; [reflexivity|]. split; [reflexivity|]. split; [reflexivity|].
  split; [discriminate|reflexivity].
Qed.

(** C2, as the code has it.  A request issued by an instance without the
    interceptor is sent once and its outcome returned.  On an instance
    with the interceptor, a transient failure of the first attempt is
    followed by one rotation, and the instance the rotation hands back
    replays the merged configuration of the failed attempt: the same URL
    and, where it names agents, the same agents, so that the replay leaves
    by the proxy of the failed attempt.  If the rotation wraps to index 0,
    the plain instance replays the request once and the outcome of the
    replay is returned as it is.  If the rotation lands on a proxy whose
    control request succeeds, the new instance replays the request, and
    it has the interceptor too: the outcome of the replay is returned
    unless it is a transient failure, and a transient failure of the
    replay is followed by a second rotation. *)
Theorem C2_rotation_and_replay
  (net : nat -> Response) (fuel : nat) (via : AxiosInstance) (cfg : Config)
  (s : State) :
  let m := mergeConfig via cfg in
  (interceptors via = false ->
   request net (S fuel) via cfg s
   = (settleWith (net (sent s)) m, requested via m s)) /\
  (forall p a, cfg_agents m = ViaProxy p -> mergeConfig a m = m) /\
  (forall p, transport via = ViaProxy p -> exists q, cfg_agents m = ViaProxy q) /\
  (forall c,
     interceptors via = true -> net (sent s) = NetErr c ->
     isTransient c = true ->
     let s1 := requested via m s in
     (js_strict_eq (nextIndex s) (Num 0) = true ->
      request net (S (S fuel)) via cfg s
      = (settleWith (net (S (sent s))) (mergeConfig plainInstance m),
         requested plainInstance (mergeConfig plainInstance m) (rotated s1))) /\
     (js_strict_eq (nextIndex s) (Num 0) = false ->
      forall data, net (S (sent s)) = NetOk data ->
        let a := proxied (rotated s1) in
        let s2 := validating (rotated s1) in
        let m' := mergeConfig a m in
        request net (S (S fuel)) via cfg s = request net (S fuel) a m s2 /\
        interceptors a = true /\
        (forall d', net (S (S (sent s))) = NetOk d' ->
           request net (S (S fuel)) via cfg s
           = (Resolved d', requested a m' s2)) /\
        (forall c', net (S (S (sent s))) = NetErr c' ->
           isTransient c' = false ->
           request net (S (S fuel)) via cfg s
           = (Rejected (mkError c' m'), requested a m' s2)) /\
        (forall c', net (S (S (sent s))) = NetErr c' ->
           isTransient c' = true ->
           exists r,
             trace (snd (request net (S (S fuel)) via cfg s))
             = (trace s ++ EvRequest via (cfg_agents m) (cfg_url m)
                  :: EvRotate (nextIndex s)
                  :: EvRequest a (transport a) IPIFY
                  :: EvRequest a (cfg_agents m') (cfg_url m)
                  :: EvRotate (nextIndex (rotated s1)) :: r)%list))).
Proof.
  intros m.
  split; [apply request_plain|].
  split; [intros p a; apply mergeConfig_keeps|].
  split.
  { intros p Hp. unfold m, mergeConfig. cbn [cfg_agents]. rewrite Hp.
    destruct (cfg_agents cfg) as [|q]; cbn; eauto. }
  intros c Hi Hn Ht s1.
  destruct (request_transient net (S fuel) via cfg s c Hi Hn Ht) as [E _].
  fold m in E. fold s1 in E. unfold bind in E.
  split.
  - intros Hz. rewrite E.
    rewrite (rotateProxy_wraps net (S fuel) s1 Hz).
    now rewrite request_plain.
  - intros Hz data Hd a s2 m'.
    assert (Hrot : rotateProxy net (S fuel) s1 = (Resolved a, s2)).
    { rewrite (rotateProxy_lands net fuel s1 Hz).
      change (sent s1) with (S (sent s)). now rewrite Hd. }
    rewrite Hrot in E.
    assert (Htr : trace s2
                  = (trace s ++ [EvRequest via (cfg_agents m) (cfg_url m);
                                 EvRotate (nextIndex s);
                                 EvRequest a (transport a) IPIFY])%list).
    { cbn [s2 validating requested installed rotated record count_sent
           set_axiosInstance set_currentProxyIndex trace s1].
      rewrite <- !app_assoc. reflexivity. }
    split; [exact E|]. split; [reflexivity|]. rewrite E.
    split; [|split].
    + intros d' Hd'. rewrite request_eq.
      change (sent s2) with (S (S (sent s))). now rewrite Hd'.
    + intros c' Hc' Ht'. now apply request_terminal.
    + intros c' Hc' Ht'.
      destruct (request_transient net fuel a m s2 c' eq_refl Hc' Ht')
        as [_ [r Hr]].
      exists r. rewrite Hr, Htr, <- app_assoc. reflexivity.
Qed.

Lemma C2_rotation_and_replay_witness :
  let s := set_currentProxyIndex (Num 2) pool3 in
  let page := mkConfig "https://example.test" (ViaProxy (Some "3.3.3.3:8080")) in
  let page1 := mkConfig "https://example.test" (ViaProxy (Some "1.1.1.1:8080")) in
  request (script [timedOut; timedOut]) 2 (proxied s)
          (getUrl "https://example.test") s
  = (Rejected (mkError (CStr "ETIMEDOUT") page),
     requested plainInstance page (rotated (requested (proxied s) page s))) /\
  request (script [timedOut; NetOk "ip"; NetOk "<html>ok</html>"]) 2
          (proxied pool3) (getUrl "https://example.test") pool3
  = (Resolved "<html>ok</html>",
     requested (mkInstance (ViaProxy (Some "2.2.2.2:8080")) true) page1
       (validating (rotated (requested (proxied pool3) page1 pool3)))) /\
  request allOk 1 plainInstance (getUrl "https://example.test") pool3
  = (Resolved "ok",
     requested plainInstance (getUrl "https://example.test") pool3).
Proof.
  intros s page page1. split; [|split].
  - destruct (C2_rotation_and_replay (script [timedOut; timedOut]) 0
                (proxied s) (getUrl "https://example.test") s) as (_ & _ & _ & H).
    destruct (H (CStr "ETIMEDOUT") eq_refl eq_refl eq_refl) as [Hwrap _].
    exact (Hwrap eq_refl).
  - destruct (C2_rotation_and_replay
                (script [timedOut; NetOk "ip"; NetOk "<html>ok</html>"]) 0
                (proxied pool3) (getUrl "https://example.test") pool3)
      as (_ & _ & _ & H).
    destruct (H (CStr "ETIMEDOUT") eq_refl eq_refl eq_refl) as [_ Hland].
    destruct (Hland eq_refl "ip" eq_refl) as (_ & _ & Hok & _).
    exact (Hok "<html>ok</html>" eq_refl).
  - destruct (C2_rotation_and_replay allOk 0 plainInstance
                (getUrl "https://example.test") pool3) as [H _].
    exact (H eq_refl).
Defined.

(** C2 as worded fails on a call of [fetchNetwork] with a proxy: the first
    attempt times out, the replay issued by the instance of the second
    proxy times out as well, and instead of returning that failure the
    client rotates a second time and replays a second time.  All three
    page requests name the agents of the first proxy. *)
Lemma C2_counterexample :
  let out := fetchNetwork twoTimeouts noClock None 3
               "https://example.test" true initialState in
  let page := mkConfig "https://example.test" (ViaProxy (Some "1.1.1.1:8080")) in
  let P := fun p => mkInstance (ViaProxy (Some p)) true in
  twoTimeouts 2 = NetErr (CStr "ETIMEDOUT") /\
  twoTimeouts 4 = NetErr (CStr "ETIMEDOUT") /\
  fst out = Resolved "<html>ok</html>" /\
  fst out <> Rejected (mkError (CStr "ETIMEDOUT") page) /\
  countRotations (trace (snd out)) = 2%nat /\
  countRequests "https://example.test" (trace (snd out)) = 3%nat /\
  trace (snd out)
  = [EvRequest plainInstance Direct DEFAULT_PROXY_URL;
     EvRequest (P "1.1.1.1:8080") (ViaProxy (Some "1.1.1.1:8080")) IPIFY;
     EvRequest (P "1.1.1.1:8080") (ViaProxy (Some "1.1.1.1:8080"))
               "https://example.test";
     EvRotate (Num 1);
     EvRequest (P "2.2.2.2:8080") (ViaProxy (Some "2.2.2.2:8080")) IPIFY;
     EvRequest (P "2.2.2.2:8080") (ViaProxy (Some "1.1.1.1:8080"))
               "https://example.test";
     EvRotate (Num 2);
     EvRequest (P "3.3.3.3:8080") (ViaProxy (Some "3.3.3.3:8080")) IPIFY;
     EvRequest (P "3.3.3.3:8080") (ViaProxy (Some "1.1.1.1:8080"))
               "https://example.test"].
Proof.
  cbv zeta. split; [reflexivity|]. split; [reflexivity|].
  split; [reflexivity|]. split; [discriminate|]. split; [reflexivity|].
  split; reflexivity.
Qed.

(** ** The index and the size of the pool *)



(** C8, where the code departs from it.  With the proxy source down the
    pool is empty; a control request that is reset then makes
    [rotateProxy] compute [(0 + 1) % 0], and the index is [NaN]: not a
    position in [0, len]. *)
Theorem C8_empty_pool_index_NaN :
  let s' := snd (fetchNetwork emptyPoolReset noClock None 3
                   "https://example.test" true initialState) in
  fst (fetchNetwork emptyPoolReset noClock None 3
         "https://example.test" true initialState) = Resolved "ok" /\
  index_in_range initialState = true /\
  proxyList s' = [] /\
  currentProxyIndex s' = NaN /\
  index_in_range s' = false /\
  nextIndex initialState = NaN.
Proof. cbv zeta. repeat split. Qed.

(** ** Which failures are rotated *)

(** C6, as the code has it.  The handler installed by
    [setupAxiosInterceptors] treats a failure as transient exactly when
    its code is ECONNABORTED, ECONNRESET, ETIMEDOUT or ERR_BAD_REQUEST, or
    when it has no code; it then rotates and has the request replayed.
    Any other failure it hands to the caller as it is, and nothing is
    rotated.  An instance without the handler classifies nothing: every
    failure, whatever its code, is handed to the caller after the one
    request.  The instance of a proxied call has the handler, the
    instance of a call without proxy has not. *)
Theorem C6_failure_classification :
  (forall c,
     isTransient c = true <->
     c = CStr "ECONNABORTED" \/ c = CStr "ECONNRESET" \/ c = CStr "ETIMEDOUT" \/
     c = CStr "ERR_BAD_REQUEST" \/ c = CUndefined \/ c = CNull) /\
  (forall net fuel a cfg s c,
     let via := setupAxiosInterceptors a in
     let m := mergeConfig via cfg in
     net (sent s) = NetErr c ->
     (isTransient c = false ->
      request net (S fuel) via cfg s
      = (Rejected (mkError c m), requested via m s)) /\
     (isTransient c = true ->
      request net (S fuel) via cfg s
      = bind (rotateProxy net fuel) (fun a' => request net fuel a' m)
             (requested via m s) /\
      exists r, trace (snd (request net (S fuel) via cfg s))
                = (trace s ++ EvRequest via (cfg_agents m) (cfg_url m)
                     :: EvRotate (nextIndex s) :: r)%list)) /\
  (forall net fuel via cfg s c,
     interceptors via = false -> net (sent s) = NetErr c ->
     request net (S fuel) via cfg s
     = (Rejected (mkError c (mergeConfig via cfg)),
        requested via (mergeConfig via cfg) s)) /\
  (forall net dateNow env fuel url s c,
     net (sent s) = NetErr c ->
     fetchNetwork net dateNow env (S fuel) url false s
     = (Rejected (mkError c (getUrl url)), requested plainInstance (getUrl url) s)) /\
  (forall net dateNow env fuel url s ip c,
     refreshNeeded (dateNow (reads s)) s = false ->
     net (sent s) = NetOk ip -> net (S (sent s)) = NetErr c ->
     let out := fetchNetwork net dateNow env (S (S fuel)) url true s in
     let page := mergeConfig (proxied s) (getUrl url) in
     let control := EvRequest (proxied s) (transport (proxied s)) IPIFY in
     let first := EvRequest (proxied s) (transport (proxied s)) url in
     (isTransient c = false ->
      fst out = Rejected (mkError c page) /\
      trace (snd out) = (trace s ++ [control; first])%list /\
      currentProxyIndex (snd out) = currentProxyIndex s) /\
     (isTransient c = true ->
      (exists r, trace (snd out)
                 = (trace s ++ control :: first :: EvRotate (nextIndex s) :: r)%list) /\
      (js_strict_eq (nextIndex s) (Num 0) = true ->
       fst out = settleWith (net (S (S (sent s)))) page /\
       currentProxyIndex (snd out) = nextIndex s /\
       trace (snd out)
       = (trace s ++ [control; first; EvRotate (nextIndex s);
                      EvRequest plainInstance (transport (proxied s)) url])%list) /\
      (js_strict_eq (nextIndex s) (Num 0) = false ->
       forall ip' data,
         net (S (S (sent s))) = NetOk ip' ->
         net (S (S (S (sent s)))) = NetOk data ->
         fst out = Resolved data /\
         currentProxyIndex (snd out) = nextIndex s /\
         countRotations (trace (snd out)) = S (countRotations (trace s))))).
Proof.
  split; [exact isTransient_iff|]. split; [|split; [|split]].
  - intros net fuel a cfg s c via m Hn. split; intros Ht.
    + exact (request_terminal net fuel via cfg s c eq_refl Hn Ht).
    + exact (request_transient net fuel via cfg s c eq_refl Hn Ht).
  - intros net fuel via cfg s c Hi Hn.
    rewrite request_plain by exact Hi. now rewrite Hn.
  - intros net dateNow env fuel url s c Hn.
    rewrite fetchNetwork_direct. now rewrite Hn.
  - intros net dateNow env fuel url s ip c Hfresh Hip Hc out page control first.
    set (s1 := validating (count_read s)).
    assert (Hout : out = request net (S (S fuel)) (proxied s) (getUrl url) s1).
    { unfold out. rewrite fetchNetwork_fresh by exact Hfresh.
      rewrite request_eq.
      change (sent (installed (count_read s))) with (sent s). rewrite Hip.
      reflexivity. }
    assert (Hs1 : net (sent s1) = NetErr c) by exact Hc.
    assert (Htr1 : trace s1 = (trace s ++ [control])%list) by reflexivity.
    split; intros Ht.
    + rewrite Hout.
      rewrite (request_terminal net (S fuel) (proxied s) (getUrl url) s1 c
                 eq_refl Hs1 Ht).
      cbn [fst snd]. split; [reflexivity|]. split; [|reflexivity].
      cbn [requested record count_sent trace]. rewrite Htr1, <- app_assoc.
      reflexivity.
    + destruct (request_transient net (S fuel) (proxied s) (getUrl url) s1 c
                  eq_refl Hs1 Ht) as [E [r Hr]].
      fold page in E. unfold bind in E.
      split; [|split].
      * exists r. rewrite Hout, Hr, Htr1, <- app_assoc. reflexivity.
      * intros Hz. rewrite Hout, E.
        rewrite (rotateProxy_wraps net (S fuel) (requested (proxied s) page s1))
          by exact Hz.
        rewrite request_plain by reflexivity.
        cbn [fst snd]. split; [reflexivity|]. split; [reflexivity|].
        cbn [requested rotated record count_sent set_currentProxyIndex trace].
        rewrite Htr1, <- !app_assoc. reflexivity.
      * intros Hz ip' data Hip' Hdata. rewrite Hout, E.
        rewrite (rotateProxy_lands net fuel (requested (proxied s) page s1))
          by exact Hz.
        change (sent (requested (proxied s) page s1)) with (S (S (sent s))).
        rewrite Hip'. rewrite request_eq.
        change (sent (validating (rotated (requested (proxied s) page s1))))
          with (S (S (S (sent s)))).
        rewrite Hdata. cbn [fst snd].
        split; [reflexivity|]. split; [reflexivity|].
        cbn [validating requested installed rotated record count_sent
             set_axiosInstance set_currentProxyIndex trace].
        rewrite Htr1, !countRotations_app. cbn. lia.
Qed.

Lemma C6_failure_classification_witness :
  let s := set_currentProxyIndex (Num 2) pool3 in
  let page := mkConfig "https://example.test" (ViaProxy (Some "3.3.3.3:8080")) in
  isTransient (CStr "ETIMEDOUT") = true /\
  fst (fetchNetwork (script [NetOk "ip"; NetErr (CStr "ERR_BAD_RESPONSE")])
         (clockAt 5) None 2 "https://example.test" true s)
  = Rejected (mkError (CStr "ERR_BAD_RESPONSE") page) /\
  currentProxyIndex
    (snd (fetchNetwork (script [NetOk "ip"; timedOut; NetOk "<html>ok</html>"])
            (clockAt 5) None 2 "https://example.test" true s)) = Num 0 /\
  fst (fetchNetwork (script [timedOut]) (clockAt 5) None 1
         "https://example.test" false s)
  = Rejected (mkError (CStr "ETIMEDOUT") (getUrl "https://example.test")).
Proof.
  intros s page.
  destruct C6_failure_classification as (Hc & _ & _ & Hdirect & Hcall).
  split; [apply Hc; auto|]. split; [|split].
  - destruct (Hcall (script [NetOk "ip"; NetErr (CStr "ERR_BAD_RESPONSE")])
                (clockAt 5) None 0%nat "https://example.test" s "ip"
                (CStr "ERR_BAD_RESPONSE") eq_refl eq_refl eq_refl) as [H _].
    exact (proj1 (H eq_refl)).
  - destruct (Hcall (script [NetOk "ip"; timedOut; NetOk "<html>ok</html>"])
                (clockAt 5) None 0%nat "https://example.test" s "ip"
                (CStr "ETIMEDOUT") eq_refl eq_refl eq_refl) as [_ H].
    destruct (H eq_refl) as (_ & Hwrap & _).
    exact (proj1 (proj2 (Hwrap eq_refl))).
  - rewrite (Hdirect (script [timedOut]) (clockAt 5) None 0%nat
               "https://example.test" s (CStr "ETIMEDOUT") eq_refl).
    reflexivity.
Defined.

(** C6 as worded fails on a call without proxy: the connection times out,
    which is one of the failures the claim calls transient, and the
    failure is handed to the caller after the one request, with no
    rotation and no replay. *)
Lemma C6_counterexample :
  let out := fetchNetwork (script [timedOut]) noClock None 5
               "https://example.test" false pool3 in
  isTransient (CStr "ETIMEDOUT") = true /\
  fst out = Rejected (mkError (CStr "ETIMEDOUT") (getUrl "https://example.test")) /\
  countRotations (trace (snd out)) = 0%nat /\
  countRequests "https://example.test" (trace (snd out)) = 1%nat /\
  currentProxyIndex (snd out) = currentProxyIndex pool3.
Proof. cbv zeta. repeat split. Qed.

(** ** The render queue *)

Module RenderQueueProofs.
Import RenderQueue.
Local Open Scope list_scope.

Lemma remove1_length t l :
  In t l -> S (List.length (remove1 t l)) = List.length l.
Proof.
  induction l as [|x l IH]; cbn; [tauto|].
  destruct (Task_eq_dec t x) as [->|Hne]; [reflexivity|].
  intros [H|H]; [congruence|]. cbn. now rewrite IH.
Qed.

Lemma remove1_perm t l : In t l -> Permutation (t :: remove1 t l) l.
Proof.
  induction l as [|x l IH]; cbn; [tauto|].
  destruct (Task_eq_dec t x) as [->|Hne]; [reflexivity|].
  intros [H|H]; [congruence|].
  rewrite perm_swap. constructor. now apply IH.
Qed.

(** The processor, run on a state in which at most one slot is free
    whenever two tasks wait, restores consistency. *)
Lemma processPuppeteerQueue_consistent q :
  activePuppeteerRequests q = Z.of_nat (List.length (running q)) ->
  (List.length (running q) <= 2)%nat ->
  (puppeteerQueue q <> [] -> (1 <= List.length (running q))%nat
                             \/ List.length (puppeteerQueue q) = 1%nat) ->
  started q ++ puppeteerQueue q = submitted q ->
  Permutation (started q) (finished q ++ running q) ->
  consistent (processPuppeteerQueue q).
Proof.
  intros Ha Hle Hq Hs Hp. unfold processPuppeteerQueue, MAX_PUPPETEER_REQUESTS.
  destruct (Z.leb_spec 2 (activePuppeteerRequests q)) as [Hfull|Hfree]; cbn [orb].
  - repeat split; auto. intros _. lia.
  - destruct (puppeteerQueue q) as [|t rest] eqn:Eq; cbn [List.length].
    + cbn. unfold consistent. rewrite Eq. repeat split; auto. congruence.
    + cbn [Z.of_nat Z.eqb Pos.of_succ_nat]. cbn.
      repeat split; cbn.
      * rewrite length_app, Ha. cbn. lia.
      * rewrite length_app. cbn. lia.
      * intros Hrest. rewrite length_app. cbn.
        destruct Hq as [H1|H1]; [discriminate| |].
        -- lia.
        -- destruct rest; [congruence|discriminate].
      * now rewrite <- app_assoc.
      * rewrite app_assoc. now apply Permutation_app_tail.
Qed.

Lemma queuePuppeteerRequest_consistent t q :
  consistent q -> consistent (queuePuppeteerRequest t q).
Proof.
  intros (Ha & Hle & Hq & Hs & Hp).
  apply processPuppeteerQueue_consistent; cbn; auto.
  - intros _. destruct (puppeteerQueue q) as [|h r] eqn:E.
    + now right.
    + left. rewrite Hq by discriminate. lia.
  - now rewrite app_assoc, Hs.
Qed.

Lemma settled_consistent t q :
  consistent q -> consistent (settled t q).
Proof.
  intros Hc. pose proof Hc as (Ha & Hle & Hq & Hs & Hp). unfold settled.
  destruct (in_dec Task_eq_dec t (running q)) as [Hin|]; [|exact Hc].
  pose proof (remove1_length t _ Hin) as Hlen.
  apply processPuppeteerQueue_consistent; cbn; auto.
  - lia.
  - lia.
  - intros Hne. left. specialize (Hq Hne). lia.
  - rewrite <- app_assoc. cbn.
    rewrite Hp. apply Permutation_app_head. symmetry.
    now apply remove1_perm.
Qed.

Lemma empty_consistent : consistent empty.
Proof. repeat split; cbn; auto; try lia. congruence. Qed.

Lemma run_consistent es : forall q, consistent q -> consistent (run es q).
Proof.
  induction es as [|e es IH]; intros q Hq; [exact Hq|].
  cbn. apply IH. destruct e; cbn.
  - now apply queuePuppeteerRequest_consistent.
  - now apply settled_consistent.
Qed.

(** The processor moves tasks from the queue to the running set and
    forgets none. *)
Lemma processPuppeteerQueue_keeps q :
  outstanding (processPuppeteerQueue q) = outstanding q /\
  finished (processPuppeteerQueue q) = finished q /\
  submitted (processPuppeteerQueue q) = submitted q.
Proof.
  unfold processPuppeteerQueue, outstanding.
  destruct (_ || _); [auto|].
  destruct (puppeteerQueue q) as [|t l] eqn:E; [rewrite E; auto|]. cbn.
  rewrite length_app. cbn. repeat split. lia.
Qed.

Lemma settled_keeps t q :
  In t (running q) ->
  S (outstanding (settled t q)) = outstanding q /\
  finished (settled t q) = finished q ++ [t] /\
  submitted (settled t q) = submitted q.
Proof.
  intros Hin. unfold settled.
  destruct (in_dec Task_eq_dec t (running q)) as [_|]; [|contradiction].
  match goal with |- context [processPuppeteerQueue ?x] =>
    destruct (processPuppeteerQueue_keeps x) as (Ho & Hf & Hs) end.
  rewrite Ho, Hf, Hs. unfold outstanding. cbn.
  pose proof (remove1_length t _ Hin). repeat split. lia.
Qed.

Lemma complete_spec ts : forall q q',
  consistent q -> complete ts q = Some q' ->
  consistent q' /\
  (outstanding q' + List.length ts = outstanding q)%nat /\
  finished q' = finished q ++ ts /\
  submitted q' = submitted q.
Proof.
  induction ts as [|t ts IH]; intros q q' Hc H; cbn in H.
  - injection H as <-. rewrite app_nil_r.
    split; [exact Hc|]. split; [cbn; lia|]. split; reflexivity.
  - destruct (in_dec Task_eq_dec t (running q)) as [Hin|]; [|discriminate].
    destruct (settled_keeps t q Hin) as (Ho & Hf & Hs).
    destruct (IH _ _ (settled_consistent t q Hc) H) as (Hc' & Ho' & Hf' & Hs').
    split; [exact Hc'|]. split; [cbn; lia|]. split; [|congruence].
    rewrite Hf', Hf, <- app_assoc. reflexivity.
Qed.

Lemma progress q :
  consistent q -> (0 < outstanding q)%nat -> running q <> [].
Proof.
  intros (_ & _ & Hq & _) Ho Hr. unfold outstanding in Ho. rewrite Hr in *.
  destruct (puppeteerQueue q); [cbn in Ho; lia|].
  specialize (Hq ltac:(discriminate)). discriminate.
Qed.

Lemma drain_complete n : forall q,
  consistent q -> n = outstanding q ->
  (exists q', complete (drain n q) q = Some q') /\
  List.length (drain n q) = n.
Proof.
  induction n as [|n IH]; intros q Hc Hn.
  - split; [now exists q|reflexivity].
  - pose proof (progress q Hc ltac:(lia)) as Hr. cbn.
    destruct (running q) as [|t r] eqn:Er; [congruence|].
    assert (Hin : In t (running q)) by (rewrite Er; now left).
    destruct (settled_keeps t q Hin) as (Ho & _).
    destruct (IH (settled t q) (settled_consistent t q Hc) ltac:(lia))
      as [[q' Hq'] Hl].
    cbn [complete List.length].
    destruct (in_dec Task_eq_dec t (running q)); [|contradiction].
    split; [now exists q'|now rewrite Hl].
Qed.

(** C4. After every sequence of submissions and task ends the counter
    is the number of running tasks, between 0 and 2.  While a task is
    outstanding one is running, so there is always a task whose end can
    come next; and once as many tasks have ended as were outstanding,
    in whatever order, every submitted task has started and ended. *)
Theorem C4_concurrency_ceiling (es : list Ev) :
  let q := run es empty in
  0 <= activePuppeteerRequests q <= MAX_PUPPETEER_REQUESTS /\
  activePuppeteerRequests q = Z.of_nat (List.length (running q)) /\
  ((0 < outstanding q)%nat -> running q <> []) /\
  (forall ts q',
     complete ts q = Some q' -> List.length ts = outstanding q ->
     puppeteerQueue q' = [] /\ running q' = [] /\
     activePuppeteerRequests q' = 0 /\
     started q' = submitted q /\
     Permutation (finished q') (submitted q)) /\
  (exists q', complete (drain (outstanding q) q) q = Some q') /\
  List.length (drain (outstanding q) q) = outstanding q.
Proof.
  intros q.
  assert (Hc : consistent q) by (apply run_consistent, empty_consistent).
  pose proof Hc as (Ha & Hle & Hq & Hs & Hp).
  split; [unfold MAX_PUPPETEER_REQUESTS; lia|]. split; [exact Ha|].
  split; [now apply progress|]. split.
  - intros ts q' Hcomp Hlen.
    destruct (complete_spec ts q q' Hc Hcomp) as (Hc' & Ho & Hf & Hsub).
    destruct Hc' as (Ha' & _ & _ & Hs' & Hp').
    assert (H0 : outstanding q' = 0%nat) by lia.
    unfold outstanding in H0.
    assert (Hq0 : puppeteerQueue q' = [])
      by (destruct (puppeteerQueue q'); [reflexivity|cbn in H0; lia]).
    assert (Hr0 : running q' = [])
      by (destruct (running q'); [reflexivity|cbn in H0; lia]).
    rewrite Hq0, app_nil_r in Hs'. rewrite Hr0, app_nil_r in Hp'.
    rewrite Hr0 in Ha'. repeat split; auto; try congruence.
    rewrite <- Hsub, <- Hs'. now symmetry.
  - now apply drain_complete.
Qed.

Lemma C4_concurrency_ceiling_witness :
  let q := run [Enqueue (page 1); Enqueue (page 2); Enqueue (page 3)] empty in
  activePuppeteerRequests q = 2 /\
  running q <> [] /\
  forall q', complete [page 2; page 1; page 3] q = Some q' ->
             started q' = [page 1; page 2; page 3] /\ running q' = [].
Proof.
  intros q.
  pose proof (C4_concurrency_ceiling
                [Enqueue (page 1); Enqueue (page 2); Enqueue (page 3)]) as H.
  cbv zeta in H. fold q in H.
  destruct H as (_ & _ & Hprog & Hall & _).
  split; [reflexivity|]. split; [apply Hprog; cbn; lia|].
  intros q' Hq'. destruct (Hall _ q' Hq' eq_refl) as (_ & Hr & _ & Hs & _).
  split; [exact Hs|exact Hr].
Defined.

(** C5. The tasks started so far, followed by the tasks that wait, are
    the tasks submitted, in the order of submission: the k-th task to
    start is the k-th task that was submitted.  A submission made while
    both slots are taken goes to the tail of the queue, and the task
    started when a running task ends is the head of the queue. *)
Theorem C5_fifo_admission (es : list Ev) :
  let q := run es empty in
  started q ++ puppeteerQueue q = submitted q /\
  (forall t,
     submitted (step q (Enqueue t)) = submitted q ++ [t] /\
     (MAX_PUPPETEER_REQUESTS <= activePuppeteerRequests q ->
      puppeteerQueue (step q (Enqueue t)) = puppeteerQueue q ++ [t] /\
      started (step q (Enqueue t)) = started q)) /\
  (forall t h rest,
     In t (running q) -> puppeteerQueue q = h :: rest ->
     puppeteerQueue (step q (Done t)) = rest /\
     started (step q (Done t)) = started q ++ [h]) /\
  (forall i j t2,
     (i <= j)%nat -> nth_error (started q) j = Some t2 ->
     nth_error (submitted q) j = Some t2 /\
     nth_error (started q) i = nth_error (submitted q) i /\
     nth_error (started q) i <> None).
Proof.
  intros q.
  assert (Hc : consistent q) by (apply run_consistent, empty_consistent).
  pose proof Hc as (Ha & Hle & Hq & Hs & Hp).
  split; [exact Hs|]. split; [|split].
  - intros t. split.
    + cbn [step]. unfold queuePuppeteerRequest.
      match goal with |- context [processPuppeteerQueue ?x] =>
        destruct (processPuppeteerQueue_keeps x) as (_ & _ & Hsub) end.
      rewrite Hsub. reflexivity.
    + intros Hfull. cbn [step]. unfold queuePuppeteerRequest, processPuppeteerQueue.
      cbn [activePuppeteerRequests].
      destruct (Z.leb_spec MAX_PUPPETEER_REQUESTS (activePuppeteerRequests q));
        [|lia]. cbn. split; reflexivity.
  - intros t h rest Hin Hqueue. cbn [step]. unfold settled.
    destruct (in_dec Task_eq_dec t (running q)) as [_|]; [|contradiction].
    assert (Hfull : List.length (running q) = 2%nat)
      by (apply Hq; rewrite Hqueue; discriminate).
    unfold processPuppeteerQueue, MAX_PUPPETEER_REQUESTS.
    cbn [activePuppeteerRequests puppeteerQueue].
    rewrite Hqueue, Ha, Hfull. cbn. split; reflexivity.
  - intros i j t2 Hij Hj.
    assert (Hlt : (j < List.length (started q))%nat)
      by (apply nth_error_Some; congruence).
    rewrite <- Hs. rewrite !nth_error_app1 by lia.
    split; [exact Hj|]. split; [reflexivity|].
    apply nth_error_Some. lia.
Qed.

Lemma C5_fifo_admission_witness :
  let q := run [Enqueue (page 1); Enqueue (page 2); Enqueue (page 3);
                Enqueue (page 4); Done (page 2)] empty in
  puppeteerQueue (step q (Enqueue (page 5))) = [page 4; page 5] /\
  started (step q (Done (page 1))) = [page 1; page 2; page 3; page 4] /\
  nth_error (submitted q) 2 = Some (page 3).
Proof.
  intros q.
  pose proof (C5_fifo_admission
                [Enqueue (page 1); Enqueue (page 2); Enqueue (page 3);
                 Enqueue (page 4); Done (page 2)]) as H.
  cbv zeta in H. fold q in H. destruct H as (_ & Htail & Hhead & Hord).
  split; [|split].
  - destruct (Htail (page 5)) as [_ H]. apply H.
    unfold q, MAX_PUPPETEER_REQUESTS. cbn. lia.
  - apply (Hhead (page 1) (page 4) []); [unfold q; cbn; auto|reflexivity].
  - apply (Hord 1%nat 2%nat (page 3)); [lia|reflexivity].
Defined.

End RenderQueueProofs.

(** ** Refresh by several callers *)

Module RefreshProofs.
Import Refresh.
Local Open Scope list_scope.

Lemma mem_In c l : mem c l = true <-> In c l.
Proof.
  unfold mem. rewrite existsb_exists. split.
  - intros (x & Hx & E). apply Nat.eqb_eq in E. now subst.
  - intros H. exists c. split; [assumption|apply Nat.eqb_refl].
Qed.

Lemma callers_remove1_perm c l : In c l -> Permutation (c :: remove1 c l) l.
Proof.
  induction l as [|x l IH]; cbn; [tauto|].
  destruct (Nat.eqb_spec c x) as [->|Hne]; [reflexivity|].
  intros [H|H]; [congruence|].
  rewrite perm_swap. constructor. now apply IH.
Qed.

Lemma callers_remove1_In c l x :
  NoDup l -> (In x (remove1 c l) <-> In x l /\ x <> c).
Proof.
  induction 1 as [|y l Hy Hnd IH]; cbn; [tauto|].
  destruct (Nat.eqb_spec c y) as [->|Hne].
  - split; [intros H; split; [now right|congruence]|].
    intros [[H|H] Hx]; [congruence|assumption].
  - cbn. rewrite IH. split.
    + intros [H|[H1 H2]]; [subst; split; [now left|congruence]|].
      split; [now right|assumption].
    + intros [[H|H] Hx]; [now left|right; now split].
Qed.

Lemma callers_remove1_NoDup c l : NoDup l -> NoDup (remove1 c l).
Proof.
  induction 1 as [|y l Hy Hnd IH]; cbn; [constructor|].
  destruct (Nat.eqb_spec c y); [assumption|].
  constructor; [|assumption]. rewrite callers_remove1_In by assumption. tauto.
Qed.

Section Facts.
Variable env : option string.

Lemma run_app es1 es2 y : run env (es1 ++ es2) y = run env es2 (run env es1 y).
Proof. apply fold_left_app. Qed.

Lemma run_cons e es y : run env (e :: es) y = run env es (step env y e).
Proof. reflexivity. Qed.

Lemma step_single_flight y e : single_flight y -> single_flight (step env y e).
Proof.
  intros [Hlen Hflag]. destruct e as [c|c r now|c]; cbn [step].
  - unfold enter. destruct (isFetchingProxies (pool y)) eqn:E.
    + split; cbn; [exact Hlen|]. now rewrite E.
    + assert (Hnil : inflight y = []).
      { destruct (inflight y); [reflexivity|].
        assert (false = true) by (apply Hflag; discriminate). discriminate. }
      split; cbn; rewrite Hnil; cbn; [lia|].
      split; [discriminate|reflexivity].
  - unfold settle. destruct (mem c (inflight y)) eqn:E; [|now split].
    apply mem_In in E.
    destruct (inflight y) as [|x [|x' l]]; cbn in *; try tauto; try lia.
    destruct E as [->|[]]. rewrite Nat.eqb_refl.
    split; cbn; [lia|].
    destruct r; cbn; split; congruence.
  - unfold tick. destruct (mem c (polling y)); [|now split].
    destruct (negb (isFetchingProxies (pool y))); now split.
Qed.

Lemma run_single_flight es : forall y,
  single_flight y -> single_flight (run env es y).
Proof.
  induction es as [|e es IH]; intros y Hy; [exact Hy|].
  cbn. apply IH. now apply step_single_flight.
Qed.

Lemma idle_single_flight p : single_flight (idle p).
Proof. split; cbn; [lia|]. split; [discriminate|congruence]. Qed.

(** Callers that arrive while the flag is set only join the pollers. *)
Lemma calls_while_fetching cs : forall y,
  isFetchingProxies (pool y) = true ->
  run env (map Call cs) y
  = mkSys (pool y) (inflight y) (polling y ++ cs) (returned y).
Proof.
  induction cs as [|c cs IH]; intros y Hf; cbn [map].
  - rewrite app_nil_r. now destruct y.
  - rewrite run_cons. cbn [step]. unfold enter. rewrite Hf.
    rewrite IH by exact Hf. cbn. now rewrite <- app_assoc.
Qed.

(** Ticks while the flag is set change nothing. *)
Lemma ticks_while_fetching cs : forall y,
  isFetchingProxies (pool y) = true ->
  run env (map Tick cs) y = y.
Proof.
  induction cs as [|c cs IH]; intros y Hf; cbn [map]; [reflexivity|].
  rewrite run_cons. cbn [step]. unfold tick. rewrite Hf. cbn [negb].
  destruct (mem c (polling y)); now apply IH.
Qed.

(** Ticks once the flag is clear let the pollers return, each with the
    list as it is then. *)
Lemma ticks_when_done cs : forall y,
  isFetchingProxies (pool y) = false ->
  NoDup (polling y) ->
  let y' := run env (map Tick cs) y in
  pool y' = pool y /\ inflight y' = inflight y /\
  NoDup (polling y') /\
  (forall c, In c (polling y') <-> In c (polling y) /\ ~ In c cs) /\
  Permutation (map fst (returned y') ++ polling y')
              (map fst (returned y) ++ polling y) /\
  (forall c l, In (c, l) (returned y') ->
               In (c, l) (returned y) \/ l = proxyList (pool y)).
Proof.
  induction cs as [|c cs IH]; intros y Hf Hnd; cbn [map].
  - cbn. repeat split; auto; tauto.
  - rewrite run_cons. cbn [step]. unfold tick. rewrite Hf. cbn [negb].
    destruct (mem c (polling y)) eqn:Em.
    + apply mem_In in Em.
      set (y1 := mkSys (pool y) (inflight y) (remove1 c (polling y))
                       (returned y ++ [(c, proxyList (pool y))])).
      destruct (IH y1 Hf (callers_remove1_NoDup c _ Hnd))
        as (Hp & Hi & Hn & Hin & Hperm & Hret).
      cbv zeta in *. cbn [pool inflight polling returned y1] in *.
      split; [exact Hp|]. split; [exact Hi|]. split; [exact Hn|].
      split; [|split].
      * intros x. rewrite Hin, (callers_remove1_In c (polling y) x Hnd). cbn.
        split.
        -- intros [[H1 H2] H3]. split; [assumption|].
           intros [E|E]; [now subst|contradiction].
        -- intros [H1 H2]. split; [split; [assumption|]|].
           ++ intros ->. apply H2. now left.
           ++ intros E. apply H2. now right.
      * rewrite Hperm. rewrite map_app. cbn.
        rewrite <- app_assoc. apply Permutation_app_head. cbn.
        now apply callers_remove1_perm.
      * intros c1 l Hcl. destruct (Hret c1 l Hcl) as [H|H]; [|now right].
        apply in_app_or in H as [H|[H|[]]]; [now left|].
        injection H as <- <-. now right.
    + assert (Hnot : ~ In c (polling y)).
      { intros H. apply mem_In in H. congruence. }
      destruct (IH y Hf Hnd) as (Hp & Hi & Hn & Hin & Hperm & Hret).
      cbv zeta in *.
      split; [exact Hp|]. split; [exact Hi|]. split; [exact Hn|].
      split; [|split; [exact Hperm|exact Hret]].
      intros x. rewrite Hin. cbn. split.
      * intros [H1 H2]. split; [assumption|].
        intros [E|E]; [subst; contradiction|contradiction].
      * intros [H1 H2]. split; [assumption|].
        intros E. apply H2. now right.
Qed.

End Facts.

(** C3, as the code has it.  At every moment at most one caller is
    suspended in the request to the proxy source, and the flag is set
    exactly then.  When K callers enter [fetchProxyList] before the
    request of the first has settled, and nobody else enters before the
    waiting ones have returned, one request goes out; none of them
    returns before it has settled; every one that returns afterwards
    finds the same list; and once each waiting caller's timer has fired,
    all K have returned. *)
Theorem C3_single_flight_refresh (env : option string) :
  (forall es p, single_flight (run env es (idle p))) /\
  (forall p c0 cs early late r now,
     NoDup (c0 :: cs) ->
     let before := run env (map Call (c0 :: cs) ++ map Tick early) (idle p) in
     let y := run env (Settle c0 r now :: map Tick late) before in
     sent (pool before) = S (sent p) /\
     inflight before = [c0] /\ polling before = cs /\ returned before = [] /\
     sent (pool y) = S (sent p) /\
     proxyList (pool y)
     = match r with
       | NetOk data => parseProxyData data
       | NetErr _ => proxyList p
       end /\
     (forall c l, In (c, l) (returned y) -> l = proxyList (pool y)) /\
     (incl cs late ->
      Permutation (map fst (returned y)) (c0 :: cs) /\
      polling y = [] /\ inflight y = [])).
Proof.
  split.
  - intros es p. apply run_single_flight, idle_single_flight.
  - intros p c0 cs early late r now Hnd before y.
    set (p1 := count_sent (record (EvRequest plainInstance Direct (PROXY_URL env))
                             (set_isFetchingProxies true
                                (set_isFetchingProxies false p)))).
    assert (Hbefore : before = mkSys p1 [c0] cs []).
    { unfold before. rewrite run_app. cbn [map]. rewrite run_cons.
      cbn [step]. unfold enter.
      cbn [idle pool isFetchingProxies set_isFetchingProxies
           inflight polling returned app].
      fold p1.
      rewrite calls_while_fetching by reflexivity.
      now rewrite ticks_while_fetching by reflexivity. }
    set (p2 := match r with
               | NetOk data => fetchProxyList_resolved data now p1
               | NetErr _ => fetchProxyList_rejected p1
               end).
    set (y1 := mkSys p2 [] cs [(c0, proxyList p2)]).
    assert (Hy : y = run env (map Tick late) y1).
    { unfold y. rewrite Hbefore, run_cons. cbn [step].
      unfold settle. cbn [inflight mem existsb pool polling returned].
      rewrite Nat.eqb_refl. cbn [orb remove1 app]. rewrite Nat.eqb_refl.
      reflexivity. }
    assert (Hf2 : isFetchingProxies p2 = false) by (unfold p2; now destruct r).
    assert (Hnd' : NoDup cs) by (now inversion Hnd).
    destruct (ticks_when_done env late y1 Hf2 Hnd')
      as (Hp & Hi & Hn & Hin & Hperm & Hret).
    cbv zeta in *. rewrite <- Hy in *. cbn [y1 pool inflight polling returned] in *.
    rewrite Hbefore. cbn [pool inflight polling returned].
    split; [reflexivity|]. split; [reflexivity|]. split; [reflexivity|].
    split; [reflexivity|].
    split; [rewrite Hp; unfold p2; now destruct r|].
    split; [rewrite Hp; unfold p2; now destruct r|].
    split.
    + intros c l Hcl. rewrite Hp.
      destruct (Hret c l Hcl) as [[H|[]]|H]; [|assumption].
      now injection H as <- <-.
    + intros Hincl.
      assert (Hnil : polling y = []).
      { destruct (polling y) as [|c l] eqn:E; [reflexivity|].
        assert (H : In c (c :: l)) by now left.
        apply Hin in H as [H1 H2]. exfalso. apply H2. now apply Hincl. }
      split; [|split; [exact Hnil|exact Hi]].
      rewrite Hnil, app_nil_r in Hperm. exact Hperm.
Qed.

Lemma C3_single_flight_refresh_witness :
  let y := run None (map Call [1; 2; 3] ++ map Tick [2]
                     ++ Settle 1 (NetOk threeProxies) 1700000000000
                     :: map Tick [3; 2])%nat (idle initialState) in
  sent (pool y) = 1%nat /\
  (forall c l, In (c, l) (returned y) ->
               l = ["1.1.1.1:8080"; "2.2.2.2:8080"; "3.3.3.3:8080"]%string) /\
  Permutation (map fst (returned y)) [1; 2; 3]%nat.
Proof.
  pose proof (C3_single_flight_refresh None) as [_ H].
  specialize (H initialState 1%nat [2; 3]%nat [2]%nat [3; 2]%nat
                (NetOk threeProxies) 1700000000000).
  assert (Hnd : NoDup [1; 2; 3]%nat).
  { repeat constructor; cbn; intuition lia. }
  specialize (H Hnd). cbv zeta in H.
  rewrite <- run_app, <- app_assoc in H.
  destruct H as (_ & _ & _ & _ & Hsent & Hlist & Hsame & Hall).
  cbv zeta. split; [exact Hsent|]. split.
  - intros c l Hcl. rewrite (Hsame c l Hcl), Hlist. reflexivity.
  - apply Hall. intros x [<-|[<-|[]]]; cbn; auto.
Defined.

(** C3 as worded fails when a third caller enters after the first
    request has settled and before the timer of the second has fired:
    callers 1 and 2 entered together, yet two requests go out, caller 2
    has not returned when the first refresh is over, and the two find
    different lists. *)
Lemma C3_counterexample :
  let early := run None [Call 1; Call 2;
                         Settle 1 (NetErr (CStr "ECONNREFUSED")) 5;
                         Call 3; Tick 2]%nat (idle initialState) in
  let y := run None [Settle 3 (NetOk threeProxies) 9; Tick 2]%nat early in
  single_flight early /\ single_flight y /\
  returned early = [(1%nat, [])] /\
  polling early = [2%nat] /\
  sent (pool y) = 2%nat /\
  returned y
  = [(1%nat, []);
     (3%nat, ["1.1.1.1:8080"; "2.2.2.2:8080"; "3.3.3.3:8080"]%string);
     (2%nat, ["1.1.1.1:8080"; "2.2.2.2:8080"; "3.3.3.3:8080"]%string)].
Proof.
  cbv zeta. split; [|split].
  - apply run_single_flight, idle_single_flight.
  - apply run_single_flight, run_single_flight, idle_single_flight.
  - repeat split.
Qed.

End RefreshProofs.

(** * Further properties of the code *)

(** ** When the pool is refreshed *)

(** [refreshProxyListIfNeeded] asks the source exactly when the pool is
    empty or its time stamp is more than an hour old: then one request
    goes out, otherwise none and the pool is left alone.  An empty pool is
    asked for again on every call, whatever its age. *)
Theorem refresh_only_when_needed
  (net : nat -> Response) (dateNow : nat -> Z) (env : option string) (s : State) :
  isFetchingProxies s = false ->
  let now := dateNow (reads s) in
  let out := refreshProxyListIfNeeded net dateNow env s in
  fst out = Resolved tt /\
  (sent (snd out) = sent s <->
   proxyList s <> [] /\ now - lastProxyFetchTime s <= 3600000) /\
  (sent (snd out) = S (sent s) <->
   proxyList s = [] \/ 3600000 < now - lastProxyFetchTime s) /\
  (proxyList s <> [] -> now - lastProxyFetchTime s <= 3600000 ->
   snd out = count_read s).
Proof.
  intros Hflag now out.
  assert (Hneed : refreshNeeded now s = true <->
                  proxyList s = [] \/ 3600000 < now - lastProxyFetchTime s).
  { unfold refreshNeeded, proxyFetchInterval.
    rewrite orb_true_iff, Z.ltb_lt, Z.eqb_eq.
    change (60 * 60 * 1000) with 3600000.
    destruct (proxyList s); cbn [List.length]; split;
      intros [H|H]; auto; try discriminate; lia. }
  assert (Hout : out = if refreshNeeded now s
                       then fetchProxyList net dateNow env (count_read s)
                       else (Resolved tt, count_read s)).
  { unfold out, refreshProxyListIfNeeded, bind, Date_now, gets. cbn.
    change (refreshNeeded (dateNow (reads s)) (count_read s))
      with (refreshNeeded now s).
    destruct (refreshNeeded now s); reflexivity. }
  assert (Hfetch : fst (fetchProxyList net dateNow env (count_read s)) = Resolved tt
                   /\ sent (snd (fetchProxyList net dateNow env (count_read s)))
                      = S (sent s)).
  { unfold fetchProxyList, send.
    change (isFetchingProxies (count_read s)) with (isFetchingProxies s).
    rewrite Hflag. cbn. destruct (net (sent s)); split; reflexivity. }
  destruct Hfetch as [Hf1 Hf2].
  destruct (refreshNeeded now s) eqn:E; rewrite Hout.
  - assert (Hn : proxyList s = [] \/ 3600000 < now - lastProxyFetchTime s)
      by (now apply Hneed).
    split; [exact Hf1|]. rewrite Hf2.
    split; [|split].
    + split; [lia|]. intros [H1 H2]. destruct Hn; [contradiction|lia].
    + tauto.
    + intros H1 H2. destruct Hn; [contradiction|lia].
  - assert (Hn : ~ (proxyList s = [] \/ 3600000 < now - lastProxyFetchTime s)).
    { intros H. apply Hneed in H. discriminate. }
    cbn [fst snd]. change (sent (count_read s)) with (sent s).
    split; [reflexivity|]. split; [|split].
    + split; [|reflexivity]. intros _. split.
      * intros H. apply Hn. now left.
      * destruct (Z.le_gt_cases (now - lastProxyFetchTime s) 3600000); [assumption|].
        exfalso. apply Hn. right. lia.
    + split; [lia|]. intros H. contradiction.
    + reflexivity.
Qed.

Lemma refresh_only_when_needed_witness :
  sent (snd (refreshProxyListIfNeeded sourceUp (clockAt 3600000) None pool3))
  = 0%nat /\
  sent (snd (refreshProxyListIfNeeded sourceUp (clockAt 3600001) None pool3))
  = 1%nat /\
  sent (snd (refreshProxyListIfNeeded sourceUp (clockAt 0) None initialState))
  = 1%nat.
Proof.
  pose proof (refresh_only_when_needed sourceUp (clockAt 3600000) None pool3
                eq_refl) as H1.
  pose proof (refresh_only_when_needed sourceUp (clockAt 3600001) None pool3
                eq_refl) as H2.
  pose proof (refresh_only_when_needed sourceUp (clockAt 0) None initialState
                eq_refl) as H3.
  cbv zeta in H1, H2, H3.
  destruct H1 as (_ & H1 & _). destruct H2 as (_ & _ & H2 & _).
  destruct H3 as (_ & _ & H3 & _).
  split; [|split].
  - apply H1. split; [discriminate|]. unfold clockAt. cbn. lia.
  - apply H2. right. unfold clockAt. cbn. lia.
  - apply H3. now left.
Defined.

(** ** A proxied call validates the current proxy first *)

(** With a pool that needs no refresh, [fetchNetwork(url, 'axios', true)]
    sends the control request through the proxy at the current index
    before the page request, also when nothing has been rotated.  If both
    succeed the page is returned after exactly these two requests; if the
    control request fails for good, the call is rejected with that failure
    and the page is never requested. *)
Theorem proxied_fetch_validates_first
  (net : nat -> Response) (dateNow : nat -> Z) (env : option string)
  (fuel : nat) (url : string) (s : State) :
  refreshNeeded (dateNow (reads s)) s = false ->
  let out := fetchNetwork net dateNow env (S fuel) url true s in
  let route := transport (proxied s) in
  (forall ip page,
     net (sent s) = NetOk ip -> net (S (sent s)) = NetOk page ->
     out = (Resolved page,
            requested (proxied s) (mkConfig url route)
                      (validating (count_read s))) /\
     trace (snd out)
     = (trace s ++ [EvRequest (proxied s) route IPIFY;
                    EvRequest (proxied s) route url])%list) /\
  (forall c,
     net (sent s) = NetErr c -> isTransient c = false ->
     out = (Rejected (mkError c (mkConfig IPIFY route)),
            validating (count_read s)) /\
     trace (snd out) = (trace s ++ [EvRequest (proxied s) route IPIFY])%list).
Proof.
  intros Hfresh out route.
  pose proof (fetchNetwork_fresh net dateNow env (S fuel) url s Hfresh) as Hout.
  fold out in Hout.
  split.
  - intros ip page Hip Hpage.
    assert (E : out = (Resolved page,
                       requested (proxied s) (mkConfig url route)
                                 (validating (count_read s)))).
    { rewrite Hout, request_eq.
      change (sent (installed (count_read s))) with (sent s). rewrite Hip.
      rewrite request_eq.
      change (sent (requested (proxied s)
                      (mergeConfig (proxied s) (getUrl IPIFY))
                      (installed (count_read s))))
        with (S (sent s)).
      rewrite Hpage. reflexivity. }
    split; [exact E|]. rewrite E. cbn. now rewrite <- app_assoc.
  - intros c Hc Ht.
    assert (E : out = (Rejected (mkError c (mkConfig IPIFY route)),
                       validating (count_read s))).
    { rewrite Hout.
      rewrite (request_terminal net fuel (proxied s) (getUrl IPIFY)
                 (installed (count_read s)) c eq_refl Hc Ht).
      reflexivity. }
    split; [exact E|]. rewrite E. reflexivity.
Qed.

Lemma proxied_fetch_validates_first_witness :
  fetchNetwork allOk (clockAt 5) None 1 "https://example.test" true pool3
  = (Resolved "ok",
     requested (proxied pool3)
       (mkConfig "https://example.test" (ViaProxy (Some "1.1.1.1:8080")))
       (validating (count_read pool3))) /\
  fst (fetchNetwork controlTerminal (clockAt 5) None 1 "https://example.test"
         true pool3)
  = Rejected (mkError (CStr "ERR_BAD_RESPONSE")
                (mkConfig IPIFY (ViaProxy (Some "1.1.1.1:8080")))).
Proof.
  split.
  - pose proof (proxied_fetch_validates_first allOk (clockAt 5) None 0
                  "https://example.test" pool3 eq_refl) as [H _].
    exact (proj1 (H "ok" "ok" eq_refl eq_refl)).
  - pose proof (proxied_fetch_validates_first controlTerminal (clockAt 5) None 0
                  "https://example.test" pool3 eq_refl) as [_ H].
    destruct (H (CStr "ERR_BAD_RESPONSE") eq_refl eq_refl) as [E _].
    cbv zeta in E. now rewrite E.
Defined.

(** ** Index 0: direct for the rotation, the first proxy for everyone else *)

(** When a rotation wraps to index 0 it hands back the plain instance,
    yet the module now counts the first proxy as the current one: the
    next proxied call builds its instance from [proxyList[0]], and a
    render started then is launched through it. *)
Theorem index_zero_is_first_proxy
  (net : nat -> Response) (dateNow : nat -> Z) (env : option string)
  (fuel fuel' : nat) (s : State) (p0 : string) (rest : list string) :
  js_strict_eq (nextIndex s) (Num 0) = true ->
  proxyList s = p0 :: rest ->
  let out := rotateProxy net fuel s in
  fst out = Resolved plainInstance /\
  sent (snd out) = sent s /\
  launchArgs true (snd out)
  = ["--no-sandbox"; "--disable-setuid-sandbox"; "--disable-dev-shm-usage";
     "--disable-gpu"; ("--proxy-server=http://" ++ p0)%string] /\
  (refreshNeeded (dateNow (reads s)) s = false ->
   forall ip, net (sent s) = NetOk ip ->
     fst (getAxiosInstance net dateNow env (S fuel') true (snd out))
     = Resolved (mkInstance (ViaProxy (Some p0)) true)).
Proof.
  intros Hz Hl out.
  assert (Hout : out = (Resolved plainInstance, rotated s))
    by (now apply rotateProxy_wraps).
  assert (Hidx : nextIndex s = Num 0).
  { destruct (nextIndex s) as [z|]; [|discriminate]. cbn in Hz.
    apply Z.eqb_eq in Hz. now subst. }
  rewrite Hout. cbn [fst snd].
  split; [reflexivity|]. split; [reflexivity|]. split.
  - unfold launchArgs.
    change (proxyList (rotated s)) with (proxyList s).
    change (currentProxyIndex (rotated s)) with (nextIndex s).
    rewrite Hl, Hidx. reflexivity.
  - intros Hfresh ip Hip.
    unfold getAxiosInstance. cbn [negb].
    unfold bind at 1. unfold refreshProxyListIfNeeded, bind at 1 2, Date_now, gets.
    cbn [fst snd].
    change (refreshNeeded (dateNow (reads (rotated s))) (count_read (rotated s)))
      with (refreshNeeded (dateNow (reads s)) s).
    rewrite Hfresh. unfold ret, setupAxiosInstanceWithProxy.
    rewrite setupAxiosInstanceWithProxy__eq, request_eq.
    change (sent (installed (count_read (rotated s)))) with (sent s).
    rewrite Hip. cbn [fst axiosInstance requested count_sent record].
    unfold installed, proxied. cbn [axiosInstance set_axiosInstance].
    change (proxyList (count_read (rotated s))) with (proxyList s).
    change (currentProxyIndex (count_read (rotated s))) with (nextIndex s).
    rewrite Hl, Hidx. reflexivity.
Qed.

Lemma index_zero_is_first_proxy_witness :
  let s := set_currentProxyIndex (Num 2) pool3 in
  fst (rotateProxy allOk 1 s) = Resolved plainInstance /\
  fst (getAxiosInstance allOk (clockAt 5) None 1 true (snd (rotateProxy allOk 1 s)))
  = Resolved (mkInstance (ViaProxy (Some "1.1.1.1:8080")) true).
Proof.
  intros s.
  pose proof (index_zero_is_first_proxy allOk (clockAt 5) None 1 0 s
                "1.1.1.1:8080" ["2.2.2.2:8080"; "3.3.3.3:8080"]
                eq_refl eq_refl) as H.
  cbv zeta in H. destruct H as (H1 & _ & _ & H2).
  split; [exact H1|]. exact (H2 eq_refl "ok" eq_refl).
Defined.

(** ** A pool of one proxy *)

(** With a single proxy the new index is 0 after every rotation: the
    rotation sends nothing, validates nothing and hands back the plain
    instance, whatever the network does. *)
Theorem single_proxy_rotation_is_direct
  (net : nat -> Response) (fuel : nat) (s : State) (i : Z) :
  List.length (proxyList s) = 1%nat ->
  currentProxyIndex s = Num i ->
  rotateProxy net fuel s = (Resolved plainInstance, rotated s) /\
  currentProxyIndex (snd (rotateProxy net fuel s)) = Num 0 /\
  sent (snd (rotateProxy net fuel s)) = sent s.
Proof.
  intros Hlen Hi.
  assert (Hnext : nextIndex s = Num 0).
  { unfold nextIndex, js_length. rewrite Hi, Hlen. cbn.
    now rewrite Z.rem_1_r. }
  assert (Hout : rotateProxy net fuel s = (Resolved plainInstance, rotated s)).
  { apply rotateProxy_wraps. now rewrite Hnext. }
  rewrite Hout. cbn [snd]. split; [reflexivity|]. split; [exact Hnext|reflexivity].
Qed.

Lemma single_proxy_rotation_is_direct_witness :
  rotateProxy allTimeout 0 pool1 = (Resolved plainInstance, rotated pool1).
Proof.
  exact (proj1 (single_proxy_rotation_is_direct allTimeout 0 pool1 0
                  eq_refl eq_refl)).
Defined.

(** ** How far a chain of rotations goes *)

Lemma mergeConfig_plain m : mergeConfig plainInstance m = m.
Proof. destruct m as [u [|p]]; reflexivity. Qed.

(** When every request fails with a transient code, a request issued by
    an instance with the interceptor, in a pool of N proxies at index
    N - (k + 1), rotates k + 1 times, up to the wrap to index 0, sends
    k + 2 requests and is rejected.  Unless the first rotation wraps
    already, the failure handed to the caller is that of the control
    request of the last proxy and not that of the request itself. *)
Theorem all_transient_chain_ends_direct (net : nat -> Response) :
  (forall n, transientAt net n) ->
  forall (k fuel : nat) (via : AxiosInstance) (cfg : Config) (s : State) (i : Z),
  interceptors via = true ->
  currentProxyIndex s = Num i ->
  0 <= i ->
  i + Z.of_nat (S k) = Z.of_nat (List.length (proxyList s)) ->
  let out := request net (S (S k + fuel)) via cfg s in
  (exists c,
     fst out
     = Rejected (mkError c
         (match k with
          | O => mergeConfig via cfg
          | S _ => mkConfig IPIFY
                     (ViaProxy (nth_error (proxyList s)
                                  (List.length (proxyList s) - 1)))
          end))) /\
  currentProxyIndex (snd out) = Num 0 /\
  proxyList (snd out) = proxyList s /\
  countRotations (trace (snd out)) = (countRotations (trace s) + S k)%nat /\
  sent (snd out) = (sent s + S (S k))%nat.
Proof.
  intros Hnet k. induction k as [|k IH]; intros fuel via cfg s i Hv Hi Hi0 HN out;
    set (m := mergeConfig via cfg).
  - (* the rotation wraps *)
    destruct (Hnet (sent s)) as (c & Hc & Ht).
    destruct (Hnet (S (sent s))) as (c' & Hc' & _).
    assert (Hnext : nextIndex s = Num 0).
    { rewrite (nextIndex_in_range s i Hi) by lia.
      f_equal. rewrite <- HN. replace (i + 1) with (1 * (i + Z.of_nat 1)) by lia.
      apply Z.mod_mul. lia. }
    assert (E : out = (Rejected (mkError c' m),
                       requested plainInstance m (rotated (requested via m s)))).
    { unfold out. cbn [Nat.add].
      destruct (request_transient net (S fuel) via cfg s c Hv Hc Ht) as [E _].
      rewrite E. fold m. unfold bind.
      rewrite (rotateProxy_wraps net (S fuel) (requested via m s))
        by (change (nextIndex (requested via m s)) with (nextIndex s);
            now rewrite Hnext).
      rewrite request_plain by reflexivity. rewrite mergeConfig_plain.
      change (sent (rotated (requested via m s))) with (S (sent s)).
      now rewrite Hc'. }
    rewrite E. cbn [fst snd].
    split; [now exists c'|]. split; [exact Hnext|]. split; [reflexivity|].
    split; [|cbn; lia].
    cbn [requested rotated record count_sent set_currentProxyIndex trace].
    rewrite !countRotations_app. cbn. lia.
  - (* the rotation lands on a proxy whose control request fails too *)
    destruct (Hnet (sent s)) as (c & Hc & Ht).
    set (s1 := requested via m s).
    assert (Hnext : nextIndex s = Num (i + 1)).
    { rewrite (nextIndex_in_range s i Hi) by lia. f_equal.
      apply Z.mod_small. lia. }
    assert (Hz : js_strict_eq (nextIndex s1) (Num 0) = false).
    { change (nextIndex s1) with (nextIndex s). rewrite Hnext. cbn.
      apply Z.eqb_neq. lia. }
    specialize (IH fuel (proxied (rotated s1)) (getUrl IPIFY)
                  (installed (rotated s1))
                  (i + 1) eq_refl Hnext ltac:(lia)
                  ltac:(change (proxyList (installed (rotated s1)))
                          with (proxyList s); lia)).
    cbv zeta in IH. destruct IH as ((c' & Hc') & Hidx & Hlist & Hrot & Hsent).
    set (last := mkConfig IPIFY
                   (ViaProxy (nth_error (proxyList s)
                                (List.length (proxyList s) - 1)))).
    assert (Hcfg : match k with
                   | O => mergeConfig (proxied (rotated s1)) (getUrl IPIFY)
                   | S _ => mkConfig IPIFY
                              (ViaProxy
                                 (nth_error (proxyList (installed (rotated s1)))
                                    (List.length (proxyList (installed (rotated s1))) - 1)))
                   end = last).
    { destruct k; [|reflexivity].
      unfold mergeConfig, getUrl, proxied, last. cbn [cfg_url cfg_agents transport mergeAgents].
      change (currentProxyIndex (rotated s1)) with (nextIndex s).
      change (proxyList (rotated s1)) with (proxyList s).
      rewrite Hnext. cbn [js_index].
      destruct (Z.ltb_spec (i + 1) 0); [lia|].
      do 3 f_equal. lia. }
    rewrite Hcfg in Hc'.
    assert (E : out = (Rejected (mkError c' last),
                       snd (request net (S (S k + fuel)) (proxied (rotated s1))
                              (getUrl IPIFY) (installed (rotated s1))))).
    { unfold out.
      change (S (S (S k) + fuel)) with (S (S (S k + fuel))).
      destruct (request_transient net (S (S k + fuel)) via cfg s c Hv Hc Ht)
        as [E _].
      rewrite E. fold m. fold s1. unfold bind, rotateProxy.
      rewrite rotateProxy__eq, Hz, setupAxiosInstanceWithProxy__eq.
      destruct (request net (S (S k + fuel)) (proxied (rotated s1)) (getUrl IPIFY)
                  (installed (rotated s1))) as [r s'].
      cbn [fst snd] in *. rewrite Hc'. reflexivity. }
    rewrite E. cbn [fst snd].
    split; [now exists c'|]. split; [exact Hidx|]. split; [exact Hlist|].
    split.
    + rewrite Hrot.
      cbn [installed rotated s1 requested record count_sent set_axiosInstance
           set_currentProxyIndex trace].
      rewrite !countRotations_app. cbn. lia.
    + rewrite Hsent. cbn. lia.
Qed.

Lemma allTimeout_transient : forall n, transientAt allTimeout n.
Proof. intros n. exists (CStr "ETIMEDOUT"). split; reflexivity. Qed.

Lemma all_transient_chain_ends_direct_witness :
  let out := request allTimeout (S (S 2 + 0)) (proxied pool3)
               (getUrl "https://example.test") pool3 in
  (exists c, fst out
             = Rejected (mkError c (mkConfig IPIFY
                                      (ViaProxy (Some "3.3.3.3:8080"))))) /\
  currentProxyIndex (snd out) = Num 0 /\
  countRotations (trace (snd out)) = (0 + 3)%nat /\
  sent (snd out) = (0 + 4)%nat.
Proof.
  intros out.
  pose proof (all_transient_chain_ends_direct allTimeout allTimeout_transient
                2 0 (proxied pool3) (getUrl "https://example.test") pool3 0
                eq_refl eq_refl ltac:(lia) eq_refl) as H.
  cbv zeta in H. fold out in H. destruct H as (H1 & H2 & _ & H3 & H4).
  split; [exact H1|]. split; [exact H2|]. split; [exact H3|exact H4].
Defined.

(** ** Calls that never settle *)

Lemma nextIndex_empty s : proxyList s = [] -> nextIndex s = NaN.
Proof.
  intros H. unfold nextIndex, js_length. rewrite H.
  destruct (currentProxyIndex s); reflexivity.
Qed.

(** On an empty pool no rotation reaches index 0, so none hands back the
    plain instance: while every request fails with a transient code, a
    request through an instance with the interceptor rotates once for
    every unit of fuel and has no outcome, however much fuel it gets. *)
Theorem empty_pool_rotates_forever (net : nat -> Response) :
  (forall n, transientAt net n) ->
  forall (fuel : nat) (via : AxiosInstance) (cfg : Config) (s : State),
  interceptors via = true ->
  proxyList s = [] ->
  let out := request net fuel via cfg s in
  fst out = NoFuel /\
  proxyList (snd out) = [] /\
  countRotations (trace (snd out)) = (countRotations (trace s) + fuel)%nat.
Proof.
  intros Hnet fuel. induction fuel as [|fuel IH]; intros via cfg s Hv Hl out.
  - cbn. split; [reflexivity|]. split; [exact Hl|lia].
  - destruct (Hnet (sent s)) as (c & Hc & Ht).
    set (s1 := requested via (mergeConfig via cfg) s).
    specialize (IH (proxied (rotated s1)) (getUrl IPIFY) (installed (rotated s1))
                  eq_refl Hl).
    cbv zeta in IH. destruct IH as (Hr & Hlist & Hrot).
    assert (E : out = (NoFuel,
                       snd (request net fuel (proxied (rotated s1)) (getUrl IPIFY)
                              (installed (rotated s1))))).
    { unfold out.
      destruct (request_transient net fuel via cfg s c Hv Hc Ht) as [E _].
      rewrite E. fold s1. unfold bind, rotateProxy.
      rewrite rotateProxy__eq, (nextIndex_empty s1 Hl).
      cbn [js_strict_eq]. rewrite setupAxiosInstanceWithProxy__eq.
      destruct (request net fuel (proxied (rotated s1)) (getUrl IPIFY)
                  (installed (rotated s1))) as [r s'].
      cbn [fst snd] in *. now rewrite Hr. }
    rewrite E. cbn [fst snd].
    split; [reflexivity|]. split; [exact Hlist|].
    rewrite Hrot.
    cbn [installed rotated s1 requested record count_sent set_axiosInstance
         set_currentProxyIndex trace].
    rewrite !countRotations_app. cbn. lia.
Qed.

Lemma empty_pool_rotates_forever_witness :
  fst (request allTimeout 7 (proxied initialState) (getUrl IPIFY) initialState)
  = NoFuel.
Proof.
  exact (proj1 (empty_pool_rotates_forever allTimeout allTimeout_transient
                  7 (proxied initialState) (getUrl IPIFY) initialState
                  eq_refl eq_refl)).
Defined.

(** The same for a whole call: with the proxy source unreachable and the
    pool empty, [fetchNetwork(url, 'axios', true)] has no outcome while
    every request fails with a transient code. *)
Theorem proxied_fetch_on_empty_pool_never_settles
  (net : nat -> Response) (dateNow : nat -> Z) (env : option string) :
  (forall n, transientAt net n) ->
  forall (fuel : nat) (url : string) (s : State),
  isFetchingProxies s = false ->
  proxyList s = [] ->
  fst (fetchNetwork net dateNow env fuel url true s) = NoFuel.
Proof.
  intros Hnet fuel url s Hflag Hl.
  destruct (Hnet (sent s)) as (c & Hc & _).
  set (s1 := fetchProxyList_rejected
               (requested plainInstance (getUrl (PROXY_URL env))
                  (set_isFetchingProxies true (count_read s)))).
  assert (Hrefresh : refreshProxyListIfNeeded net dateNow env s = (Resolved tt, s1)).
  { unfold refreshProxyListIfNeeded, bind, Date_now, gets. cbn [fst snd].
    assert (Hn : refreshNeeded (dateNow (reads s)) (count_read s) = true).
    { unfold refreshNeeded. change (proxyList (count_read s)) with (proxyList s).
      rewrite Hl. cbn. apply orb_true_r. }
    rewrite Hn. unfold fetchProxyList, send.
    change (isFetchingProxies (count_read s)) with (isFetchingProxies s).
    rewrite Hflag. cbn [sent set_isFetchingProxies count_read].
    now rewrite Hc. }
  destruct (empty_pool_rotates_forever net Hnet fuel (proxied s1) (getUrl IPIFY)
              (installed s1) eq_refl Hl) as (Hr & _).
  unfold fetchNetwork, getAxiosInstance. cbn [negb].
  unfold bind at 1 2. rewrite Hrefresh.
  unfold setupAxiosInstanceWithProxy. rewrite setupAxiosInstanceWithProxy__eq.
  destruct (request net fuel (proxied s1) (getUrl IPIFY) (installed s1))
    as [r s'].
  cbn [fst] in Hr. now rewrite Hr.
Qed.

Lemma proxied_fetch_on_empty_pool_never_settles_witness :
  fst (fetchNetwork allTimeout noClock None 7 "https://example.test" true
         initialState) = NoFuel.
Proof.
  exact (proxied_fetch_on_empty_pool_never_settles allTimeout noClock None
           allTimeout_transient 7 "https://example.test" initialState
           eq_refl eq_refl).
Defined.

(** ** A pool of two proxies that never gives up *)

Lemma roundsOfThree_next net base :
  roundsOfThree net base -> roundsOfThree net (base + 3).
Proof.
  intros H j. specialize (H (S j)).
  replace (base + 3 + 3 * j)%nat with (base + 3 * S j)%nat by lia.
  exact H.
Qed.

(** One round: the request fails, the rotation lands on the second proxy,
    whose control request fails; the next rotation wraps, the plain
    instance replays the control request, still by the agents of the
    second proxy, and this time it is answered; the instance of the
    second proxy is handed back and replays the request with the
    configuration it failed with. *)
Lemma round_of_three net fuel via cfg s :
  interceptors via = true ->
  List.length (proxyList s) = 2%nat ->
  currentProxyIndex s = Num 0 ->
  roundsOfThree net (sent s) ->
  let m := mergeConfig via cfg in
  let P1 := proxied (rotated (requested via m s)) in
  exists s4,
    request net (S (S (S fuel))) via cfg s = request net (S (S fuel)) P1 m s4 /\
    transport P1 = ViaProxy (nth_error (proxyList s) 1) /\
    proxyList s4 = proxyList s /\ currentProxyIndex s4 = Num 0 /\
    sent s4 = (sent s + 3)%nat /\
    trace s4
    = (trace s ++ [EvRequest via (cfg_agents m) (cfg_url m);
                   EvRotate (Num 1);
                   EvRequest P1 (transport P1) IPIFY;
                   EvRotate (Num 0);
                   EvRequest plainInstance (transport P1) IPIFY])%list.
Proof.
  intros Hv Hlen Hi Hnet m P1.
  destruct (Hnet O) as ((c0 & Hc0 & Ht0) & (c1 & Hc1 & Ht1) & (d & Hd)).
  rewrite Nat.mul_0_r, Nat.add_0_r in *.
  set (s1 := requested via m s).
  assert (Hn1 : nextIndex s1 = Num 1).
  { unfold nextIndex, js_length.
    change (currentProxyIndex s1) with (currentProxyIndex s).
    change (proxyList s1) with (proxyList s). now rewrite Hi, Hlen. }
  set (s2 := installed (rotated s1)).
  set (s3 := requested P1 (controlConfig (rotated s1)) s2).
  assert (Hn3 : nextIndex s3 = Num 0).
  { unfold nextIndex, js_length.
    change (currentProxyIndex s3) with (nextIndex s1).
    change (proxyList s3) with (proxyList s). now rewrite Hn1, Hlen. }
  set (s4 := requested plainInstance (controlConfig (rotated s1)) (rotated s3)).
  exists s4.
  assert (Hs2 : net (sent s2) = NetErr c1).
  { change (sent s2) with (S (sent s)). now rewrite <- Nat.add_1_r. }
  assert (Hs3 : net (sent (rotated s3)) = NetOk d).
  { change (sent (rotated s3)) with (S (S (sent s))).
    replace (S (S (sent s))) with (sent s + 2)%nat by lia. exact Hd. }
  assert (HP1 : transport P1 = ViaProxy (nth_error (proxyList s) 1)).
  { unfold P1, proxied. cbn [transport]. fold s1.
    change (currentProxyIndex (rotated s1)) with (nextIndex s1).
    change (proxyList (rotated s1)) with (proxyList s).
    now rewrite Hn1. }
  split; [|split; [exact HP1|split; [reflexivity|split; [exact Hn3|split]]]].
  - destruct (request_transient net (S (S fuel)) via cfg s c0 Hv Hc0 Ht0) as [E _].
    rewrite E. fold m. fold s1. unfold bind, rotateProxy.
    rewrite rotateProxy__eq, Hn1. cbn [js_strict_eq Z.eqb].
    rewrite setupAxiosInstanceWithProxy__eq. fold s2.
    destruct (request_transient net (S fuel) (proxied (rotated s1)) (getUrl IPIFY)
                s2 c1 eq_refl Hs2 Ht1) as [E2 _].
    rewrite E2. unfold bind.
    change (requested (proxied (rotated s1))
              (mergeConfig (proxied (rotated s1)) (getUrl IPIFY)) s2) with s3.
    rewrite (rotateProxy_wraps net (S fuel) s3) by (now rewrite Hn3).
    rewrite request_plain by reflexivity. rewrite mergeConfig_plain.
    rewrite Hs3. cbn [settleWith]. reflexivity.
  - cbn. lia.
  - cbn [s4 s3 s2 s1 requested rotated installed record count_sent
         set_axiosInstance set_currentProxyIndex trace].
    rewrite Hn3. change (nextIndex (requested via m s)) with (nextIndex s1).
    rewrite Hn1, <- !app_assoc. reflexivity.
Qed.

(** The wrap to index 0 ends a chain of rotations only when the request
    being replayed is not a control request.  In a pool of two proxies at
    index 0, if in every round the request and the control request of the
    second proxy fail with a transient code while the replay of that
    control request is answered, each round hands back an instance with
    the interceptor and index 0 again, and the request has no outcome
    however long it runs. *)
Theorem two_proxies_rotate_forever (net : nat -> Response) :
  forall (fuel : nat) (via : AxiosInstance) (cfg : Config) (s : State),
  interceptors via = true ->
  List.length (proxyList s) = 2%nat ->
  currentProxyIndex s = Num 0 ->
  roundsOfThree net (sent s) ->
  let out := request net fuel via cfg s in
  let m := mergeConfig via cfg in
  let P1 := proxied (rotated (requested via m s)) in
  fst out = NoFuel /\
  transport P1 = ViaProxy (nth_error (proxyList s) 1) /\
  ((3 <= fuel)%nat ->
   exists r, trace (snd out)
             = (trace s ++ EvRequest via (cfg_agents m) (cfg_url m)
                  :: EvRotate (Num 1)
                  :: EvRequest P1 (transport P1) IPIFY
                  :: EvRotate (Num 0)
                  :: EvRequest plainInstance (transport P1) IPIFY
                  :: EvRequest P1 (cfg_agents (mergeConfig P1 m)) (cfg_url m)
                  :: r)%list).
Proof.
  intros fuel via cfg s Hv Hlen Hi Hnet out m P1.
  assert (Hno : forall fuel via cfg s,
            interceptors via = true -> List.length (proxyList s) = 2%nat ->
            currentProxyIndex s = Num 0 -> roundsOfThree net (sent s) ->
            fst (request net fuel via cfg s) = NoFuel).
  { clear. intros fuel.
    induction fuel as [fuel IH] using lt_wf_ind.
    intros via cfg s Hv Hlen Hi Hnet.
    destruct fuel as [|[|[|fuel]]].
    - reflexivity.
    - destruct (Hnet O) as ((c0 & Hc0 & Ht0) & _).
      rewrite Nat.mul_0_r, Nat.add_0_r in *.
      destruct (request_transient net 0 via cfg s c0 Hv Hc0 Ht0) as [E _].
      rewrite E. unfold bind, rotateProxy. rewrite rotateProxy__eq.
      change (nextIndex (requested via (mergeConfig via cfg) s)) with (nextIndex s).
      unfold nextIndex, js_length. rewrite Hi, Hlen. cbn [js_add js_rem Z.add].
      cbn. reflexivity.
    - destruct (Hnet O) as ((c0 & Hc0 & Ht0) & (c1 & Hc1 & Ht1) & _).
      rewrite Nat.mul_0_r, Nat.add_0_r in *.
      destruct (request_transient net 1 via cfg s c0 Hv Hc0 Ht0) as [E _].
      rewrite E. unfold bind, rotateProxy. rewrite rotateProxy__eq.
      set (s1 := requested via (mergeConfig via cfg) s).
      assert (Hn1 : nextIndex s1 = Num 1).
      { unfold nextIndex, js_length.
        change (currentProxyIndex s1) with (currentProxyIndex s).
        change (proxyList s1) with (proxyList s). now rewrite Hi, Hlen. }
      rewrite Hn1. cbn [js_strict_eq Z.eqb].
      rewrite setupAxiosInstanceWithProxy__eq.
      assert (Hs2 : net (sent (installed (rotated s1))) = NetErr c1).
      { change (sent (installed (rotated s1))) with (S (sent s)).
        now rewrite <- Nat.add_1_r. }
      destruct (request_transient net 0 (proxied (rotated s1)) (getUrl IPIFY)
                  (installed (rotated s1)) c1 eq_refl Hs2 Ht1) as [E2 _].
      rewrite E2. unfold bind.
      set (s3 := requested (proxied (rotated s1))
                   (mergeConfig (proxied (rotated s1)) (getUrl IPIFY))
                   (installed (rotated s1))).
      assert (Hn3 : nextIndex s3 = Num 0).
      { unfold nextIndex, js_length.
        change (currentProxyIndex s3) with (nextIndex s1).
        change (proxyList s3) with (proxyList s). now rewrite Hn1, Hlen. }
      rewrite (rotateProxy_wraps net 0 s3) by (now rewrite Hn3).
      reflexivity.
    - destruct (round_of_three net fuel via cfg s Hv Hlen Hi Hnet)
        as (s4 & E & _ & Hl4 & Hi4 & Hs4 & _).
      rewrite E. apply IH; [lia|reflexivity|congruence|exact Hi4|].
      rewrite Hs4. now apply roundsOfThree_next. }
  split; [now apply Hno|].
  destruct (round_of_three net 0 via cfg s Hv Hlen Hi Hnet)
    as (_ & _ & HP1 & _).
  split; [exact HP1|].
  intros Hfuel.
  destruct fuel as [|[|[|fuel]]]; try lia.
  destruct (round_of_three net fuel via cfg s Hv Hlen Hi Hnet)
    as (s4 & E & _ & _ & _ & _ & Htr).
  fold m in E, Htr. fold P1 in E, Htr.
  destruct (request_trace net (S fuel) P1 m s4) as [r Hr].
  exists r. unfold out. rewrite E, Hr, Htr, <- app_assoc. reflexivity.
Qed.

Lemma everyThirdOk_rounds : roundsOfThree everyThirdOk 0.
Proof.
  intros j. unfold transientAt, okAt, everyThirdOk.
  assert (H0 : ((0 + 3 * j) mod 3 = 0)%nat)
    by (rewrite Nat.add_0_l, Nat.mul_comm; apply Nat.Div0.mod_mul).
  assert (H1 : ((0 + 3 * j + 1) mod 3 = 1)%nat).
  { rewrite Nat.add_0_l, Nat.add_comm, Nat.mul_comm, Nat.Div0.mod_add.
    reflexivity. }
  assert (H2 : ((0 + 3 * j + 2) mod 3 = 2)%nat).
  { rewrite Nat.add_0_l, Nat.add_comm, Nat.mul_comm, Nat.Div0.mod_add.
    reflexivity. }
  rewrite H0, H1, H2. cbn.
  split; [|split].
  - exists (CStr "ETIMEDOUT"). split; reflexivity.
  - exists (CStr "ETIMEDOUT"). split; reflexivity.
  - now exists "198.51.100.9".
Qed.

Lemma two_proxies_rotate_forever_witness :
  fst (request everyThirdOk 9 (proxied pool2) (getUrl "https://example.test")
         pool2) = NoFuel.
Proof.
  exact (proj1 (two_proxies_rotate_forever everyThirdOk 9 (proxied pool2)
                  (getUrl "https://example.test") pool2 eq_refl eq_refl eq_refl
                  everyThirdOk_rounds)).
Defined.

(** ** The index stays in the list *)


(** ** A list in the format of the source is read back as it is *)

Lemma concat_cons sep (x y : string) (l : list string) :
  String.concat (String sep "") (x :: y :: l)
  = (x ++ String sep (String.concat (String sep "") (y :: l)))%string.
Proof. reflexivity. Qed.

Lemma join_split sep s : String.concat (String sep "") (split sep s) = s.
Proof.
  induction s as [|c s IH]; [reflexivity|]. cbn [split].
  pose proof (split_not_nil sep s) as Hn.
  destruct (split sep s) as [|h t]; [congruence|].
  destruct (Ascii.eqb_spec c sep) as [->|Hne].
  - rewrite concat_cons. cbn [append]. now rewrite IH.
  - destruct t as [|h' t].
    + cbn [String.concat] in *. now rewrite IH.
    + rewrite concat_cons in *. cbn [append]. now rewrite IH.
Qed.

Lemma split_concat sep l :
  l <> [] -> (forall e, In e l -> contains sep e = false) ->
  split sep (String.concat (String sep "") l) = l.
Proof.
  induction l as [|x l IH]; intros Hne Hfree; [congruence|].
  destruct l as [|y l].
  - cbn [String.concat]. apply split_free, Hfree. now left.
  - rewrite concat_cons, split_app_sep by (apply Hfree; now left).
    f_equal. apply IH; [discriminate|]. intros e He. apply Hfree. now right.
Qed.

Lemma split_snoc_sep sep s :
  split sep (s ++ String sep "") = (split sep s ++ [""])%list.
Proof.
  induction s as [|c s IH]; cbn.
  - now rewrite Ascii.eqb_refl.
  - destruct (Ascii.eqb c sep); rewrite IH; [reflexivity|].
    pose proof (split_not_nil sep s). destruct (split sep s); [congruence|].
    reflexivity.
Qed.

Lemma normalizeProxy_fixed e :
  trim e = e -> (List.length (split COLON e) <= 2)%nat -> normalizeProxy e = e.
Proof.
  intros Ht Hl. unfold normalizeProxy, slice0, join. rewrite Ht.
  rewrite firstn_all2 by exact Hl. apply (join_split COLON).
Qed.

(** Entries that are not empty, have no line feed, no white space around
    them and at most two colon-delimited fields are what the source is
    meant to list.  Joined by line feeds, with or without a final one,
    they are read back one for one and in order: the refresh neither
    drops nor alters nor reorders them. *)
Theorem parseProxyData_round_trip (l : list string) :
  (forall e, In e l ->
     e <> "" /\ contains LF e = false /\ trim e = e /\
     (List.length (split COLON e) <= 2)%nat) ->
  parseProxyData (String.concat (String LF "") l) = l /\
  parseProxyData (String.concat (String LF "") l ++ String LF "") = l.
Proof.
  intros Hwf.
  assert (Hmap : map normalizeProxy l = l).
  { rewrite <- (map_id l) at 2. apply map_ext_in. intros e He.
    destruct (Hwf e He) as (_ & _ & Ht & Hl). now apply normalizeProxy_fixed. }
  assert (Hfilter : filter truthy l = l).
  { apply forallb_filter_id, forallb_forall. intros e He.
    apply truthy_iff. now destruct (Hwf e He). }
  assert (Hfree : forall e, In e l -> contains LF e = false)
    by (intros e He; now destruct (Hwf e He) as (_ & H & _)).
  unfold parseProxyData.
  destruct l as [|x l'] eqn:El; [split; reflexivity|]. rewrite <- El in *.
  assert (Hne : l <> []) by (rewrite El; discriminate).
  rewrite split_snoc_sep, (split_concat LF l Hne Hfree).
  split.
  - now rewrite Hmap.
  - rewrite map_app, filter_app, Hmap, Hfilter. cbn. apply app_nil_r.
Qed.

Lemma parseProxyData_round_trip_witness :
  parseProxyData (threeProxies ++ String LF "")
  = ["1.1.1.1:8080"; "2.2.2.2:8080"; "3.3.3.3:8080"].
Proof.
  apply (parseProxyData_round_trip
           ["1.1.1.1:8080"; "2.2.2.2:8080"; "3.3.3.3:8080"]).
  intros e [<-|[<-|[<-|[]]]]; repeat split; try discriminate; cbn; lia.
Defined.

(** ** No slot stays free while a task waits *)

Module RenderQueueMore.
Import RenderQueue.

(** After every sequence of submissions and task ends, the number of
  running tasks is the smaller of 2 and the number of tasks that have
  not ended: a task waits in the queue only while both slots are
  taken. *)
Theorem render_queue_work_conserving (es : list Ev) :
let q := run es empty in
List.length (running q) = Nat.min 2 (outstanding q) /\
(puppeteerQueue q <> [] -> activePuppeteerRequests q = MAX_PUPPETEER_REQUESTS).
Proof.
intros q.
assert (Hc : consistent q)
  by (apply RenderQueueProofs.run_consistent, RenderQueueProofs.empty_consistent).
destruct Hc as (Ha & Hle & Hq & _). unfold outstanding. split.
- destruct (puppeteerQueue q) as [|t r].
  + cbn [List.length Nat.add]. lia.
  + rewrite (Hq ltac:(discriminate)). cbn [List.length]. lia.
- intros Hne. rewrite Ha, (Hq Hne). reflexivity.
Qed.

Lemma render_queue_work_conserving_witness :
let q := run [Enqueue (page 1); Enqueue (page 2); Enqueue (page 3);
              Done (page 1)] empty in
List.length (running q) = 2%nat /\ puppeteerQueue q = [].
Proof.
intros q.
pose proof (render_queue_work_conserving
              [Enqueue (page 1); Enqueue (page 2); Enqueue (page 3);
               Done (page 1)]) as H.
cbv zeta in H. fold q in H. destruct H as [H _].
split; [rewrite H; reflexivity|reflexivity].
Defined.

End RenderQueueMore.

(** ** One render session *)

Module RenderProofs.
Import Render.

Ltac ask_world world :=
repeat match goal with
       | |- context [match world ?c with _ => _ end] =>
           let E := fresh "E" in destruct (world c) eqn:E; cbn [fst snd app]
       end.

(** The document is returned only when every call of the session has
  returned, the three of the [finally] block included: a session that
  has loaded and read the page still fails when closing the browser or
  the page throws, with the error of the closing call. *)
Theorem render_result_needs_clean_close
(world : Call -> Answer) (url : string) (useProxy : bool) (s : State)
(content : string) :
fst (fetchWithPuppeteer world url useProxy s) = Ok content <->
returns world (Launch (launchArgs useProxy s)) /\
returns world NewPage /\ returns world SetUserAgent /\
returns world SetRequestInterception /\ returns world (Goto url) /\
world Content = Returned content /\
returns world BrowserClose /\ returns world PageClose /\
returns world RemoveAllListeners.
Proof.
unfold fetchWithPuppeteer, bindP, finally, call, retP, returns.
set (args := launchArgs useProxy s). cbn [fst snd app].
ask_world world;
  (split;
   [ intros H; try discriminate H; injection H as <-;
     repeat split; eauto
   | intros H; decompose [and ex] H; clear H; congruence ]).
Qed.

Lemma render_result_needs_clean_close_witness :
fst (fetchWithPuppeteer healthy "https://example.test" false pool3)
= Ok "<html>ok</html>".
Proof.
apply render_result_needs_clean_close.
repeat split; try (now exists ""); reflexivity.
Defined.

(** Once the listener is registered, [browser.close()] is called exactly
  once, whether loading and reading the page works or not;
  [page.close()] follows only if [browser.close()] returned, and is
  skipped, the session failing, if it threw. *)
Theorem render_closes_browser_once
(world : Call -> Answer) (url : string) (useProxy : bool) (s : State) :
returns world (Launch (launchArgs useProxy s)) ->
returns world NewPage -> returns world SetUserAgent ->
returns world SetRequestInterception ->
let out := fetchWithPuppeteer world url useProxy s in
browserCloses (snd out) = 1%nat /\
(returns world BrowserClose -> pageCloses (snd out) = 1%nat) /\
(throws world BrowserClose ->
 pageCloses (snd out) = 0%nat /\ exists e, fst out = Thrown e).
Proof.
intros [v1 H1] [v2 H2] [v3 H3] [v4 H4].
unfold fetchWithPuppeteer, bindP, finally, call, retP, returns, throws.
set (args := launchArgs useProxy s) in *. cbn [fst snd app].
rewrite H1. cbn [fst snd app]. rewrite H2. cbn [fst snd app].
rewrite H3. cbn [fst snd app]. rewrite H4. cbn [fst snd app].
ask_world world; cbv zeta;
  (split;
   [ reflexivity
   | split;
     [ intros [v H]; first [congruence | reflexivity]
     | intros [e H];
       first [congruence | (split; [reflexivity | eauto])] ] ]).
Qed.

Lemma render_closes_browser_once_witness :
browserCloses (snd (fetchWithPuppeteer pageGone "https://example.test"
                      true pool3)) = 1%nat /\
pageCloses (snd (fetchWithPuppeteer pageGone "https://example.test"
                   true pool3)) = 1%nat.
Proof.
pose proof (render_closes_browser_once pageGone "https://example.test" true
              pool3) as H.
assert (R : forall c, c <> PageClose -> returns pageGone c).
{ intros c Hc. unfold returns.
  destruct c; try congruence;
    first [now exists "" | now exists "<html>ok</html>"]. }
specialize (H (R (Launch (launchArgs true pool3)) ltac:(discriminate))
              (R NewPage ltac:(discriminate))
              (R SetUserAgent ltac:(discriminate))
              (R SetRequestInterception ltac:(discriminate))).
cbv zeta in H. destruct H as (H1 & H2 & _).
split; [exact H1|]. apply H2. apply R. discriminate.
Defined.

(** The [try] begins after the page has been set up.  If the browser has
  been launched and opening or setting up the page throws, the session
  fails without [browser.close()] ever being called. *)
Theorem render_setup_failure_leaves_browser_open
(world : Call -> Answer) (url : string) (useProxy : bool) (s : State) :
returns world (Launch (launchArgs useProxy s)) ->
throws world NewPage \/ throws world SetUserAgent
\/ throws world SetRequestInterception ->
let out := fetchWithPuppeteer world url useProxy s in
(exists e, fst out = Thrown e) /\
In (Launch (launchArgs useProxy s)) (snd out) /\
browserCloses (snd out) = 0%nat.
Proof.
intros [v1 H1] Hthrow.
unfold fetchWithPuppeteer, bindP, finally, call, retP, throws in *.
set (args := launchArgs useProxy s) in *. cbn [fst snd app].
rewrite H1. cbn [fst snd app].
destruct (world NewPage) eqn:E2; cbn [fst snd app];
  [|split; [eauto|split; [now left|reflexivity]]].
destruct (world SetUserAgent) eqn:E3; cbn [fst snd app];
  [|split; [eauto|split; [now left|reflexivity]]].
destruct (world SetRequestInterception) eqn:E4; cbn [fst snd app];
  [|split; [eauto|split; [now left|reflexivity]]].
exfalso. destruct Hthrow as [[e H]|[[e H]|[e H]]]; congruence.
Qed.

Lemma render_setup_failure_leaves_browser_open_witness :
browserCloses (snd (fetchWithPuppeteer noPage "https://example.test"
                      false pool3)) = 0%nat.
Proof.
pose proof (render_setup_failure_leaves_browser_open noPage
              "https://example.test" false pool3) as H.
assert (H1 : returns noPage (Launch (launchArgs false pool3)))
  by (now exists "").
assert (H2 : throws noPage NewPage) by (now exists "Target closed").
specialize (H H1 (or_introl H2)). cbv zeta in H.
exact (proj2 (proj2 H)).
Defined.

End RenderProofs.

(** ** What the control request does not establish *)

(** When the rotation lands on the last proxy and its control request
    fails with a transient code, the interceptor rotates on to index 0
    and the plain instance replays the control request with the
    configuration it failed with, which still names the agents of the
    last proxy.  If that replay succeeds, the rotation hands back the
    instance of the last proxy, while the index says 0 and two rotations
    have been counted for the one that was asked for. *)
Theorem control_retry_returns_last_proxy_at_index_zero
  (net : nat -> Response) (fuel : nat) (s : State) (i : Z) (c : JsCode)
  (ip : string) :
  currentProxyIndex s = Num i ->
  0 <= i ->
  i + 2 = Z.of_nat (List.length (proxyList s)) ->
  net (sent s) = NetErr c -> isTransient c = true ->
  net (S (sent s)) = NetOk ip ->
  let out := rotateProxy net (S (S fuel)) s in
  let last := ViaProxy (nth_error (proxyList s) (Z.to_nat (i + 1))) in
  fst out = Resolved (mkInstance last true) /\
  currentProxyIndex (snd out) = Num 0 /\
  countRotations (trace (snd out)) = (countRotations (trace s) + 2)%nat /\
  trace (snd out)
  = (trace s ++ [EvRotate (Num (i + 1));
                 EvRequest (mkInstance last true) last IPIFY;
                 EvRotate (Num 0);
                 EvRequest plainInstance last IPIFY])%list.
Proof.
  intros Hi Hi0 HN Hc Ht Hip out last.
  assert (Hn1 : nextIndex s = Num (i + 1)).
  { rewrite (nextIndex_in_range s i Hi) by lia. f_equal. apply Z.mod_small. lia. }
  assert (Hz : js_strict_eq (nextIndex s) (Num 0) = false).
  { rewrite Hn1. cbn. apply Z.eqb_neq. lia. }
  set (s2 := validating (rotated s)).
  assert (Hn2 : nextIndex s2 = Num 0).
  { assert (Hi2 : currentProxyIndex s2 = Num (i + 1)) by exact Hn1.
    rewrite (nextIndex_in_range s2 (i + 1) Hi2)
      by (change (proxyList s2) with (proxyList s); lia).
    change (proxyList s2) with (proxyList s). rewrite <- HN. f_equal.
    replace (i + 1 + 1) with (1 * (i + 2)) by lia. apply Z.mod_mul. lia. }
  assert (Hprox : proxied (rotated s) = mkInstance last true).
  { unfold proxied, last.
    change (currentProxyIndex (rotated s)) with (nextIndex s).
    change (proxyList (rotated s)) with (proxyList s).
    rewrite Hn1. cbn [js_index].
    destruct (Z.ltb_spec (i + 1) 0); [lia|reflexivity]. }
  assert (Hctl : controlConfig (rotated s) = mkConfig IPIFY last).
  { unfold controlConfig. rewrite Hprox. reflexivity. }
  assert (E : out = (Resolved (proxied (rotated s)),
                     requested plainInstance (controlConfig (rotated s))
                               (rotated s2))).
  { unfold out. rewrite (rotateProxy_lands net (S fuel) s Hz), Hc, Ht.
    fold s2.
    rewrite (rotateProxy_wraps net (S fuel) s2) by (now rewrite Hn2).
    rewrite request_plain by reflexivity. rewrite mergeConfig_plain.
    change (sent (rotated s2)) with (S (sent s)). rewrite Hip. reflexivity. }
  assert (Htr : trace (requested plainInstance (controlConfig (rotated s))
                         (rotated s2))
                = (trace s ++ [EvRotate (Num (i + 1));
                               EvRequest (mkInstance last true) last IPIFY;
                               EvRotate (Num 0);
                               EvRequest plainInstance last IPIFY])%list).
  { cbn [requested rotated record count_sent set_currentProxyIndex trace].
    rewrite Hn2. unfold s2.
    cbn [validating requested installed rotated record count_sent
         set_axiosInstance set_currentProxyIndex trace].
    rewrite Hn1, Hctl, Hprox, <- !app_assoc. reflexivity. }
  rewrite E. cbn [fst snd].
  split; [now rewrite Hprox|]. split; [exact Hn2|]. split; [|exact Htr].
  rewrite Htr, countRotations_app. cbn. lia.
Qed.

Lemma control_retry_returns_last_proxy_at_index_zero_witness :
  let s := set_currentProxyIndex (Num 1) pool3 in
  let last := ViaProxy (Some "3.3.3.3:8080") in
  fst (rotateProxy (script [timedOut]) 2 s) = Resolved (mkInstance last true) /\
  currentProxyIndex (snd (rotateProxy (script [timedOut]) 2 s)) = Num 0 /\
  trace (snd (rotateProxy (script [timedOut]) 2 s))
  = [EvRotate (Num 2); EvRequest (mkInstance last true) last IPIFY;
     EvRotate (Num 0); EvRequest plainInstance last IPIFY].
Proof.
  intros s last.
  pose proof (control_retry_returns_last_proxy_at_index_zero (script [timedOut])
                0 s 1 (CStr "ETIMEDOUT") "ok" eq_refl ltac:(lia) eq_refl
                eq_refl eq_refl eq_refl) as H.
  cbv zeta in H. destruct H as (H1 & H2 & _ & H3).
  split; [exact H1|]. split; [exact H2|exact H3].
Defined.

(** ** A waiting caller and a later refresh *)

Module RefreshMore.
Import Refresh.

(** A caller that polls returns only at a tick that finds the flag clear.
  If another caller starts a refresh after the first one has settled and
  before the tick, the waiting caller stays in the queue, a second
  request goes out, and the caller returns at its first tick after that
  request has settled, with the list of the second refresh. *)
Theorem waiter_waits_for_later_refresh
(env : option string) (y : Sys) (c d : Caller) (r : Response) (now : Z) :
isFetchingProxies (pool y) = false ->
inflight y = [] ->
In c (polling y) ->
let y1 := run env [Call d; Tick c] y in
let y2 := run env [Settle d r now; Tick c] y1 in
sent (pool y1) = S (sent (pool y)) /\
polling y1 = polling y /\ returned y1 = returned y /\
returned y2
= (returned y ++ [(d, proxyList (pool y2)); (c, proxyList (pool y2))])%list /\
proxyList (pool y2)
= match r with
  | NetOk data => parseProxyData data
  | NetErr _ => proxyList (pool y)
  end.
Proof.
intros Hflag Hin Hc y1 y2.
assert (Hmem : mem c (polling y) = true) by (now apply RefreshProofs.mem_In).
assert (E1 : y1 = mkSys (count_sent
                           (record (EvRequest plainInstance Direct (PROXY_URL env))
                                   (set_isFetchingProxies true (pool y))))
                        [d] (polling y) (returned y)).
{ unfold y1, run. cbn [fold_left step]. unfold enter. rewrite Hflag, Hin.
  unfold tick. cbn [pool polling isFetchingProxies count_sent record
                    set_isFetchingProxies negb].
  rewrite Hmem. reflexivity. }
clearbody y1. subst y1.
set (p1 := count_sent (record (EvRequest plainInstance Direct (PROXY_URL env))
                              (set_isFetchingProxies true (pool y)))) in *.
set (p2 := match r with
           | NetOk data => fetchProxyList_resolved data now p1
           | NetErr _ => fetchProxyList_rejected p1
           end).
assert (Hf2 : isFetchingProxies p2 = false) by (unfold p2; now destruct r).
assert (E2 : y2 = mkSys p2 [] (remove1 c (polling y))
                        (returned y ++ [(d, proxyList p2); (c, proxyList p2)])%list).
{ unfold y2, run. cbn [fold_left step]. unfold settle.
  cbn [inflight mem existsb pool polling returned]. rewrite Nat.eqb_refl.
  cbn [orb remove1]. rewrite Nat.eqb_refl. fold p2. unfold tick.
  cbn [pool inflight polling returned]. rewrite Hmem, Hf2. cbn [negb].
  now rewrite <- app_assoc. }
rewrite E2. cbn [pool polling returned].
split; [reflexivity|]. split; [reflexivity|]. split; [reflexivity|].
split; [reflexivity|].
unfold p2. now destruct r.
Qed.

Lemma waiter_waits_for_later_refresh_witness :
let y := run None [Call 1; Call 2; Settle 1 (NetErr (CStr "ECONNREFUSED")) 5]%nat
             (idle initialState) in
returned (run None [Call 3; Tick 2; Settle 3 (NetOk threeProxies) 9; Tick 2]%nat y)
= ([(1, []); (3, ["1.1.1.1:8080"; "2.2.2.2:8080"; "3.3.3.3:8080"]);
    (2, ["1.1.1.1:8080"; "2.2.2.2:8080"; "3.3.3.3:8080"])])%nat.
Proof.
intros y.
pose proof (waiter_waits_for_later_refresh None y 2%nat 3%nat
              (NetOk threeProxies) 9 eq_refl eq_refl) as H.
assert (Hin : In 2%nat (polling y)) by (now left).
specialize (H Hin). cbv zeta in H.
destruct H as (_ & _ & _ & Hret & Hlist).
change (run None [Call 3; Tick 2; Settle 3 (NetOk threeProxies) 9; Tick 2]%nat y)
  with (run None [Settle 3 (NetOk threeProxies) 9; Tick 2]%nat
            (run None [Call 3; Tick 2]%nat y)).
rewrite Hret, Hlist. reflexivity.
Defined.

End RefreshMore.
